(** * Stereo-3D-Reconstruction: evaluation pass and dataset index

    A shallow embedding of [core/test.py] and of [utils/data_loaders.py]
    (the ShapeNet index builder, the sample loader and the data set),
    with the properties of the evaluation pipeline stated and proved
    over it.

    [test_net] is embedded part by part, each part with the lines it
    stands for: the fusion of the two volumes (107-108), the disparity
    loss (111-112), the IoU of a sample (120-125), the accumulator
    (128-131), the testing results (156-160) and the printed report
    (162-189, with the dictionary of line 35).  The parts are not chained
    into the loop of lines 86-153: the expression of lines 111-112 raises
    [NameError] whenever it is evaluated, so what is proved of lines
    120-131, and of lines 156-189 on a dictionary that is not empty, is
    proved of these lines on the values they are given.

    Numbers.  The tensors of one sample and the IoU of a sample are
    embedded as exact rationals extended with the three non-finite IEEE
    values, so that the unguarded division [intersection / union] has
    the value the code gets (nan for 0/0, an infinity for x/0).  The
    NumPy reductions of lines 156-160 are written over the arithmetic
    they use, with the rows added one after the other; that arithmetic
    is given twice: without rounding, and as IEEE 754 binary64. *)

From Stdlib Require Import String ZArith QArith Qcanon Lia Bool Arith List.
From Stdlib Require Floats Uint63.
Import ListNotations.

Set Implicit Arguments.

(* ================================================================== *)
(** ** Python results: a value, an exception, or [sys.exit] *)

Module Py.

Inductive exn :=
| NameError (name : string)
| KeyError (key : string)
| IndexError
| AttributeError
| ValueError
| TypeError
| IOError.

Inductive outcome (A : Type) :=
| Return (a : A)
| Raise (e : exn)
| Exit (status : Z).

Arguments Return {A} a.
Arguments Raise {A} e.
Arguments Exit {A} status.

Definition bind {A B} (m : outcome A) (k : A -> outcome B) : outcome B :=
  match m with
  | Return a => k a
  | Raise e => Raise e
  | Exit s => Exit s
  end.

Declare Scope py_scope.
Delimit Scope py_scope with py.
Notation "x <- m ;; k" := (bind m (fun x => k))
  (at level 61, m at next level, right associativity) : py_scope.

(** A [dict] keeps its keys in insertion order. *)
Definition dict (V : Type) := list (string * V).

Fixpoint dict_in {V} (k : string) (d : dict V) : bool :=
  match d with
  | [] => false
  | (k', _) :: d' => if String.eqb k k' then true else dict_in k d'
  end.

Fixpoint dict_get {V} (k : string) (d : dict V) : option V :=
  match d with
  | [] => None
  | (k', v) :: d' => if String.eqb k k' then Some v else dict_get k d'
  end.

(** [d[k] = v]: replaces the value of an existing key in place, appends
    a new key at the end. *)
Fixpoint dict_set {V} (k : string) (v : V) (d : dict V) : dict V :=
  match d with
  | [] => [(k, v)]
  | (k', v') :: d' =>
      if String.eqb k k' then (k', v) :: d' else (k', v') :: dict_set k v d'
  end.

(** In-place update of the object stored under [k]. *)
Fixpoint dict_update {V} (k : string) (f : V -> V) (d : dict V) : dict V :=
  match d with
  | [] => []
  | (k', v') :: d' =>
      if String.eqb k k' then (k', f v') :: d' else (k', v') :: dict_update k f d'
  end.

End Py.

(* ================================================================== *)
(** ** Floating-point values *)

Module Float.

Local Open Scope Qc_scope.

Inductive fval :=
| Fin (q : Qc)
| PInf
| NInf
| NaN.

Definition of_nat (n : nat) : Qc := Q2Qc (inject_Z (Z.of_nat n)).

Definition Qcleb (x y : Qc) : bool := Qle_bool x y.
Definition Qceqb (x y : Qc) : bool := Qeq_bool x y.

Definition signed_inf (c : comparison) : fval :=
  match c with
  | Gt => PInf
  | Lt => NInf
  | Eq => NaN
  end.

Definition flip (c : comparison) : comparison :=
  match c with
  | Gt => Lt
  | Lt => Gt
  | Eq => Eq
  end.

Definition fadd (a b : fval) : fval :=
  match a, b with
  | Fin x, Fin y => Fin (x + y)
  | NaN, _ | _, NaN => NaN
  | PInf, NInf | NInf, PInf => NaN
  | PInf, _ | _, PInf => PInf
  | NInf, _ | _, NInf => NInf
  end.

Definition fmul (a b : fval) : fval :=
  match a, b with
  | Fin x, Fin y => Fin (x * y)
  | NaN, _ | _, NaN => NaN
  | Fin x, PInf | PInf, Fin x => signed_inf (x ?= 0)
  | Fin x, NInf | NInf, Fin x => signed_inf (flip (x ?= 0))
  | PInf, PInf | NInf, NInf => PInf
  | PInf, NInf | NInf, PInf => NInf
  end.

(** The divisors of the program are counts, so a zero divisor is [+0]. *)
Definition fdiv (a b : fval) : fval :=
  match a, b with
  | Fin x, Fin y => if Qceqb y 0 then signed_inf (x ?= 0) else Fin (x / y)
  | NaN, _ | _, NaN => NaN
  | Fin _, PInf | Fin _, NInf => Fin 0
  | PInf, Fin y => if Qcleb 0 y then PInf else NInf
  | NInf, Fin y => if Qcleb 0 y then NInf else PInf
  | PInf, PInf | PInf, NInf | NInf, PInf | NInf, NInf => NaN
  end.

(** Elementwise operation on two arrays of one shape. *)
Fixpoint zip_with {A B C} (f : A -> B -> C) (l : list A) (k : list B) : list C :=
  match l, k with
  | x :: l', y :: k' => f x y :: zip_with f l' k'
  | _, _ => []
  end.

(** *** The arithmetic of the NumPy reductions

    The operations that lines 156-160 apply to their float64 arrays:
    the constants 0.0 and nan, the three operations and the conversion
    of a Python [int]. *)
Record arithmetic (F : Type) := {
  f_zero : F;
  f_nan : F;
  f_add : F -> F -> F;
  f_mul : F -> F -> F;
  f_div : F -> F -> F;
  f_of_int : nat -> F
}.

(** Without rounding. *)
Definition exact : arithmetic fval :=
  {| f_zero := Fin 0;
     f_nan := NaN;
     f_add := fadd;
     f_mul := fmul;
     f_div := fdiv;
     f_of_int := fun n => Fin (of_nat n) |}.


End Float.

(* ================================================================== *)
(** ** core/test.py *)

Module core_test.

Import Py Float.
Local Open Scope Qc_scope.

(** *** Lines 107-108: fusion of the two volumes

    A tensor is embedded with its first two axes explicit (batch, axis 1)
    and the remaining axes flattened. *)

Definition tensor := list (list (list Qc)).

(** [torch.cat((a, b), dim=1)] *)
Definition cat_dim1 (a b : tensor) : tensor := zip_with (@app (list Qc)) a b.

(** Sum of the slices along one axis. *)
Definition sum_slices (slices : list (list Qc)) : list Qc :=
  match slices with
  | [] => []
  | s :: rest => fold_left (zip_with Qcplus) rest s
  end.

(** [torch.mean(t, dim=1)] *)
Definition mean_dim1 (t : tensor) : list (list Qc) :=
  map (fun slices => map (fun x => x / of_nat (length slices)) (sum_slices slices)) t.

Definition fuse (left_generated_volume right_generated_volume : tensor) : list (list Qc) :=
  let generated_volume := cat_dim1 left_generated_volume right_generated_volume in
  mean_dim1 generated_volume.

(** *** Lines 120-125: IoU per sample *)

(** [torch.ge(v, th).float()] *)
Definition ge_float (v : list Qc) (th : Qc) : list Qc :=
  map (fun x => if Qcleb th x then 1 else 0) v.

Definition tensor_sum (v : list Qc) : Qc := fold_left Qcplus v 0.

(** [torch.sum(torch.ge(v, c))] *)
Definition ge_count (v : list Qc) (c : Qc) : nat :=
  length (filter (fun x => Qcleb c x) v).

Definition iou_at (th : Qc) (generated_volume ground_truth_volume : list Qc) : fval :=
  let _volume := ge_float generated_volume th in
  let intersection := tensor_sum (zip_with Qcmult _volume ground_truth_volume) in
  let union := ge_count (zip_with Qcplus _volume ground_truth_volume) 1 in
  fdiv (Fin intersection) (Fin (of_nat union)).

(** The locals [intersection] and [union] of one turn of that loop. *)
Definition intersection_at (th : Qc) (generated_volume ground_truth_volume : list Qc) : Qc :=
  tensor_sum (zip_with Qcmult (ge_float generated_volume th) ground_truth_volume).

Definition union_at (th : Qc) (generated_volume ground_truth_volume : list Qc) : nat :=
  ge_count (zip_with Qcplus (ge_float generated_volume th) ground_truth_volume) 1.

Definition sample_iou (VOXEL_THRESH : list Qc)
    (generated_volume ground_truth_volume : list Qc) : list fval :=
  fold_left (fun sample_iou th =>
               sample_iou ++ [iou_at th generated_volume ground_truth_volume])
            VOXEL_THRESH [].

(** *** Lines 128-131: IoU per taxonomy *)

Record bucket (F : Type) := { n_samples : nat; iou : list (list F) }.

Definition record_iou {F} (test_iou : dict (bucket F)) (taxonomy_id : string)
    (sample_iou : list F) : dict (bucket F) :=
  let test_iou :=
    if negb (dict_in taxonomy_id test_iou)
    then dict_set taxonomy_id {| n_samples := 0; iou := [] |} test_iou
    else test_iou in
  let test_iou :=
    dict_update taxonomy_id
      (fun b => {| n_samples := n_samples b + 1; iou := iou b |}) test_iou in
  dict_update taxonomy_id
    (fun b => {| n_samples := n_samples b; iou := iou b ++ [sample_iou] |}) test_iou.

(** *** NumPy reductions used by lines 156-160 *)

Inductive ndarray (F : Type) :=
| Arr0 (x : F)
| Arr1 (v : list F).

Arguments Arr0 {F} x.
Arguments Arr1 {F} v.

Section Reductions.

Variable F : Type.
Variable A : arithmetic F.

Definition column_sums (rows : list (list F)) : list F :=
  match rows with
  | [] => []
  | r :: rs => fold_left (zip_with (f_add A)) rs r
  end.

(** [np.mean(rows, axis=0)]: the sum of the rows over their number; rows
    of unequal length do not make an array. *)
Definition np_mean_axis0 (rows : list (list F)) : outcome (ndarray F) :=
  match rows with
  | [] => Return (Arr0 (f_nan A))
  | r :: rs =>
      if forallb (fun r' => length r' =? length r) rs
      then Return (Arr1 (map (fun s => f_div A s (f_of_int A (length rows)))
                             (column_sums rows)))
      else Raise ValueError
  end.

Definition mul_int (a : ndarray F) (n : nat) : ndarray F :=
  match a with
  | Arr0 x => Arr0 (f_mul A x (f_of_int A n))
  | Arr1 v => Arr1 (map (fun x => f_mul A x (f_of_int A n)) v)
  end.

Definition div_int (a : ndarray F) (n : nat) : ndarray F :=
  match a with
  | Arr0 x => Arr0 (f_div A x (f_of_int A n))
  | Arr1 v => Arr1 (map (fun x => f_div A x (f_of_int A n)) v)
  end.

Fixpoint scalars (arrs : list (ndarray F)) : option (list F) :=
  match arrs with
  | [] => Some []
  | Arr0 x :: rest => option_map (cons x) (scalars rest)
  | Arr1 _ :: _ => None
  end.

Fixpoint vectors (k : nat) (arrs : list (ndarray F)) : option (list (list F)) :=
  match arrs with
  | [] => Some []
  | Arr1 v :: rest =>
      if length v =? k then option_map (cons v) (vectors k rest) else None
  | Arr0 _ :: _ => None
  end.

(** [np.sum(arrs, axis=0)] of a Python list of arrays. *)
Definition np_sum_axis0 (arrs : list (ndarray F)) : outcome (ndarray F) :=
  match arrs with
  | [] => Return (Arr0 (f_zero A))
  | Arr0 x :: rest =>
      match scalars rest with
      | Some xs => Return (Arr0 (fold_left (f_add A) xs x))
      | None => Raise ValueError
      end
  | Arr1 v :: rest =>
      match vectors (length v) rest with
      | Some vs => Return (Arr1 (fold_left (zip_with (f_add A)) vs v))
      | None => Raise ValueError
      end
  end.

(** *** Lines 156-160: testing results *)

Local Open Scope py_scope.

(** The loop of lines 157-159; each entry of [test_iou] gets its mean
    vector in place of its list of vectors. *)
Fixpoint output_loop (entries : dict (bucket F)) (mean_iou : list (ndarray F))
  : outcome (dict (nat * ndarray F) * list (ndarray F)) :=
  match entries with
  | [] => Return ([], mean_iou)
  | (taxonomy_id, b) :: rest =>
      m <- np_mean_axis0 (iou b) ;;
      r <- output_loop rest (mean_iou ++ [mul_int m (n_samples b)]) ;;
      Return ((taxonomy_id, (n_samples b, m)) :: fst r, snd r)
  end.

(** Lines 156-160, from the dictionary [test_iou] and the [n_samples] of
    line 76: the rows of the report and the overall [mean_iou]. *)
Definition testing_results (test_iou : dict (bucket F)) (n_samples : nat)
  : outcome (dict (nat * ndarray F) * ndarray F) :=
  r <- output_loop test_iou [] ;;
  s <- np_sum_axis0 (snd r) ;;
  Return (fst r, div_int s n_samples).

End Reductions.

Local Open Scope py_scope.

(** *** Lines 111-112: the disparity loss

    The expression is evaluated in the scope of [test_net]: a name is
    looked up among the locals of the function, then the globals of the
    module, then the builtins. *)

Inductive pyval :=
| PyTensor (t : list Qc)
| PyCallable (f : list Qc -> list Qc -> fval)
| PyObject.

Record frame := {
  f_locals : dict pyval;
  f_globals : dict pyval;
  f_builtins : dict pyval
}.

Definition load_name (fr : frame) (name : string) : outcome pyval :=
  match dict_get name (f_locals fr) with
  | Some v => Return v
  | None =>
      match dict_get name (f_globals fr) with
      | Some v => Return v
      | None =>
          match dict_get name (f_builtins fr) with
          | Some v => Return v
          | None => Raise (NameError name)
          end
      end
  end.

Definition call (f a b : pyval) : outcome fval :=
  match f, a, b with
  | PyCallable g, PyTensor x, PyTensor y => Return (g x y)
  | _, _, _ => Raise TypeError
  end.

Local Open Scope string_scope.

Definition disparity_loss (fr : frame) : outcome fval :=
  f1 <- load_name fr "mse_loss" ;;
  a1 <- load_name fr "left_depth_estimated" ;;
  b1 <- load_name fr "left_depth_images" ;;
  l <- call f1 a1 b1 ;;
  f2 <- load_name fr "mse_loss" ;;
  a2 <- load_name fr "right_depth_estimated" ;;
  b2 <- load_name fr "right_depth_images" ;;
  r <- call f2 a2 b2 ;;
  Return (fadd l r).

(** Names bound in the module: those every module has, those of the
    imports and the function itself. *)
Definition module_globals : list string :=
  [ "__name__"; "__doc__"; "__package__"; "__loader__"; "__spec__";
    "__file__"; "__cached__"; "__builtins__";
    "json"; "plt"; "np"; "os"; "torch"; "torchvision"; "utils"; "dt";
    "SummaryWriter"; "time"; "DispNet"; "RecNet"; "test_net" ].

(** Names assigned in [test_net] before line 111 is first reached. *)
Definition test_net_locals : list string :=
  [ "cfg"; "epoch_idx"; "output_dir"; "test_data_loader"; "test_writer";
    "dispnet"; "recnet"; "taxonomies"; "file"; "IMG_SIZE"; "CROP_SIZE";
    "test_transforms"; "dataset_loader"; "checkpoint"; "bce_loss";
    "n_samples"; "test_iou"; "disparity_losses"; "voxel_losses";
    "sample_idx"; "taxonomy_id"; "sample_name"; "left_rgb_image";
    "right_rgb_image"; "left_depth_image"; "right_depth_image";
    "ground_truth_volume"; "left_depth_estimated"; "right_depth_estimated";
    "left_rgbd_image"; "right_rgbd_image"; "left_generated_volume";
    "right_generated_volume"; "generated_volume" ].

(** The builtin functions of Python 3 (the builtin namespace also holds
    the constants and the exception classes, all capitalised). *)
Definition builtin_names : list string :=
  [ "abs"; "all"; "any"; "ascii"; "bin"; "bool"; "breakpoint"; "bytearray";
    "bytes"; "callable"; "chr"; "classmethod"; "compile"; "complex";
    "delattr"; "dict"; "dir"; "divmod"; "enumerate"; "eval"; "exec";
    "filter"; "float"; "format"; "frozenset"; "getattr"; "globals";
    "hasattr"; "hash"; "help"; "hex"; "id"; "input"; "int"; "isinstance";
    "issubclass"; "iter"; "len"; "list"; "locals"; "map"; "max";
    "memoryview"; "min"; "next"; "object"; "oct"; "open"; "ord"; "pow";
    "print"; "property"; "range"; "repr"; "reversed"; "round"; "set";
    "setattr"; "slice"; "sorted"; "staticmethod"; "str"; "sum"; "super";
    "tuple"; "type"; "vars"; "zip"; "__import__" ].

Definition bind_names (names : list string) (value_of : string -> pyval) : dict pyval :=
  map (fun x => (x, value_of x)) names.

(** The scope in which line 111 runs, whatever the values of its names. *)
Definition frame_at_line_111 (value_of : string -> pyval) : frame :=
  {| f_locals := bind_names test_net_locals value_of;
     f_globals := bind_names module_globals value_of;
     f_builtins := bind_names builtin_names value_of |}.

End core_test.

(* ================================================================== *)
(** ** utils/data_loaders.py *)

Module data_loaders.

Import Py.

Inductive DatasetType := TRAIN | TEST | VAL.

(** One object of the taxonomy file. *)
Record taxonomy := {
  taxonomy_id : string;
  taxonomy_name : string;
  train : list string;
  test : list string;
  val : list string
}.

(** [cfg.DATASETS.SHAPENET]: each path template is the function that [%]
    makes of it. *)
Record SHAPENET := {
  LEFT_RENDERING_PATH : string -> string -> Z -> string;
  RIGHT_RENDERING_PATH : string -> string -> Z -> string;
  LEFT_DISP_PATH : string -> string -> Z -> string;
  RIGHT_DISP_PATH : string -> string -> Z -> string;
  VOLUME_PATH : string -> string -> string
}.

(** An element of the file list; the fields are the keys of the dict. *)
Record file_entry := {
  entry_taxonomy_name : string;
  sample_name : string;
  left_rgb_images : list string;
  right_rgb_images : list string;
  left_disp_images : list string;
  right_disp_images : list string;
  volume : string
}.

(** Lines written to standard output, without their time stamp. *)
Inductive line :=
| INFO_collecting (id name : string)
| INFO_complete (total_files : nat)
| WARN_ignore_sample (taxonomy_folder_name sample_name : string).

(** [range(n)] *)
Definition range (n : Z) : list Z := map Z.of_nat (seq 0 (Z.to_nat n)).

Section Index.

Variable cfg : SHAPENET.
(** [os.path.exists] on the storage backend. *)
Variable os_path_exists : string -> bool.

(** The loop of lines 133-148 over the view indexes. *)
Definition rendering_images (taxonomy_folder_name sample_name : string) (total_views : Z)
  : list string * list string * list string * list string :=
  let image_indexes := range total_views in
  fold_left
    (fun '(left_rgb_images_file_path, right_rgb_images_file_path,
           left_disp_images_file_path, right_disp_images_file_path) image_idx =>
       let left_rgb_file_path :=
         LEFT_RENDERING_PATH cfg taxonomy_folder_name sample_name image_idx in
       let right_rgb_file_path :=
         RIGHT_RENDERING_PATH cfg taxonomy_folder_name sample_name image_idx in
       let left_disp_file_path :=
         LEFT_DISP_PATH cfg taxonomy_folder_name sample_name image_idx in
       let right_disp_file_path :=
         RIGHT_DISP_PATH cfg taxonomy_folder_name sample_name image_idx in
       (left_rgb_images_file_path ++ [left_rgb_file_path],
        right_rgb_images_file_path ++ [right_rgb_file_path],
        left_disp_images_file_path ++ [left_disp_file_path],
        right_disp_images_file_path ++ [right_disp_file_path]))
    image_indexes ([], [], [], []).

(** Returns the file list of the taxonomy and the lines it printed. *)
Definition get_files_of_taxonomy (taxonomy_folder_name : string)
    (samples : list string) (total_views : Z) : list file_entry * list line :=
  fold_left
    (fun '(files_of_taxonomy, out) sample_name =>
       let volume_file_path := VOLUME_PATH cfg taxonomy_folder_name sample_name in
       if negb (os_path_exists volume_file_path)
       then (files_of_taxonomy,
             out ++ [WARN_ignore_sample taxonomy_folder_name sample_name])
       else
         let '(left_rgb_images_file_path, right_rgb_images_file_path,
               left_disp_images_file_path, right_disp_images_file_path) :=
           rendering_images taxonomy_folder_name sample_name total_views in
         (files_of_taxonomy ++
            [ {| entry_taxonomy_name := taxonomy_folder_name;
                 sample_name := sample_name;
                 left_rgb_images := left_rgb_images_file_path;
                 right_rgb_images := right_rgb_images_file_path;
                 left_disp_images := left_disp_images_file_path;
                 right_disp_images := right_disp_images_file_path;
                 volume := volume_file_path |} ],
          out))
    samples ([], []).

Definition get_dataset (dataset_taxonomy : list taxonomy)
    (dataset_type : DatasetType) (total_views : Z) : list file_entry * list line :=
  let '(files, out) :=
    fold_left
      (fun '(files, out) taxonomy =>
         let taxonomy_folder_name := taxonomy_id taxonomy in
         let samples :=
           match dataset_type with
           | TRAIN => train taxonomy
           | TEST => test taxonomy
           | VAL => val taxonomy
           end in
         let '(files_of_taxonomy, printed) :=
           get_files_of_taxonomy taxonomy_folder_name samples total_views in
         (files ++ files_of_taxonomy,
          out ++ INFO_collecting (taxonomy_id taxonomy) (taxonomy_name taxonomy)
              :: printed))
      dataset_taxonomy ([], []) in
  (files, out ++ [INFO_complete (length files)]).

End Index.

Section Loader.

(** Decoded arrays and the cast [astype(np.float32)]. *)
Variable ndarray : Type.
Variable astype_float32 : ndarray -> ndarray.

(** What the reads of [get_datum] find on disk. *)
Record storage := {
  (** [cv2.imread(path, cv2.IMREAD_UNCHANGED)]: [None] for a file that
      cannot be read. *)
  cv2_imread : string -> option ndarray;
  (** [pyexr.open(path).get(channel)] *)
  pyexr_get : string -> string -> outcome ndarray;
  (** [scipy.io.loadmat(path)] *)
  scipy_io_loadmat : string -> outcome (dict ndarray)
}.

Record datum := {
  d_taxonomy_name : string;
  d_sample_name : string;
  left_rgb_image : ndarray;
  right_rgb_image : ndarray;
  left_disp_image : ndarray;
  right_disp_image : ndarray;
  d_volume : ndarray
}.

(** [l[i]] *)
Definition subscript {A} (l : list A) (i : nat) : outcome A :=
  match nth_error l i with
  | Some x => Return x
  | None => Raise IndexError
  end.

(** [random.choice(range(n))], given the number [draw] that the random
    source of the process yields. *)
Definition random_choice_range (draw : nat) (n : nat) : outcome nat :=
  if n =? 0 then Raise IndexError else Return (draw mod n).

(** [x.astype(np.float32)] of what [cv2.imread] returned. *)
Definition imread_astype (x : option ndarray) : outcome ndarray :=
  match x with
  | Some a => Return (astype_float32 a)
  | None => Raise AttributeError
  end.

Local Open Scope py_scope.
Local Open Scope string_scope.

(** Lines 49-67: the entry, the view drawn and its four images. *)
Definition get_images (fs : storage) (file_list : list file_entry) (idx : nat)
    (draw : nat) : outcome (file_entry * (ndarray * ndarray * ndarray * ndarray)) :=
  e <- subscript file_list idx ;;
  let left_rgb_images_file_path := left_rgb_images e in
  let right_rgb_images_file_path := right_rgb_images e in
  let left_disp_images_file_path := left_disp_images e in
  let right_disp_images_file_path := right_disp_images e in
  selected_index <-
    random_choice_range draw (length left_rgb_images_file_path) ;;
  left_rgb_image_file_path <- subscript left_rgb_images_file_path selected_index ;;
  right_rgb_image_file_path <- subscript right_rgb_images_file_path selected_index ;;
  left_disp_image_file_path <- subscript left_disp_images_file_path selected_index ;;
  right_disp_image_file_path <- subscript right_disp_images_file_path selected_index ;;
  left_rgb_image <- imread_astype (cv2_imread fs left_rgb_image_file_path) ;;
  right_rgb_image <- imread_astype (cv2_imread fs right_rgb_image_file_path) ;;
  left_disp <- pyexr_get fs left_disp_image_file_path "Disparity.Z" ;;
  let left_disp_image := astype_float32 left_disp in
  right_disp <- pyexr_get fs right_disp_image_file_path "Disparity.Z" ;;
  let right_disp_image := astype_float32 right_disp in
  Return (e, (left_rgb_image, right_rgb_image, left_disp_image, right_disp_image)).

(** Lines 70-76: the voxel data. *)
Definition get_volume (fs : storage) (volume_path : string) : outcome ndarray :=
  volume <- scipy_io_loadmat fs volume_path ;;
  match volume with
  | [] => Exit 2
  | _ :: _ =>
      match dict_get "Volume" volume with
      | Some v => Return (astype_float32 v)
      | None => Raise (KeyError "Volume")
      end
  end.

Definition get_datum (fs : storage) (file_list : list file_entry) (idx : nat)
    (draw : nat) : outcome datum :=
  r <- get_images fs file_list idx draw ;;
  let '(e, (left_rgb_image, right_rgb_image, left_disp_image, right_disp_image)) := r in
  volume <- get_volume fs (volume e) ;;
  Return {| d_taxonomy_name := entry_taxonomy_name e;
            d_sample_name := sample_name e;
            left_rgb_image := left_rgb_image;
            right_rgb_image := right_rgb_image;
            left_disp_image := left_disp_image;
            right_disp_image := right_disp_image;
            d_volume := volume |}.

End Loader.

End data_loaders.

(* ================================================================== *)
(** ** The specification's wording, to compare the code with *)

Module spec.

Import Py Float core_test.
Local Open Scope Qc_scope.

(** *** Metric accumulator *)

(** Value >= tau maps to 1, else 0. *)
Definition binarize (tau : Qc) (fused : list Qc) : list bool :=
  map (fun x => Qcleb tau x) fused.

Definition occupied (ground_truth : list Qc) : list bool :=
  map (fun g => Qceqb g 1) ground_truth.

Definition count_true (l : list bool) : nat := length (filter (fun b => b) l).

(** Sum of the elementwise AND against the ground truth. *)
Definition intersection (tau : Qc) (fused ground_truth : list Qc) : nat :=
  count_true (zip_with andb (binarize tau fused) (occupied ground_truth)).

(** Count of the positions where prediction plus ground truth is >= 1. *)
Definition union (tau : Qc) (fused ground_truth : list Qc) : nat :=
  count_true
    (zip_with (fun (p : bool) g => Qcleb 1 ((if p then 1 else 0) + g))
              (binarize tau fused) ground_truth).

Definition iou (tau : Qc) (fused ground_truth : list Qc) : fval :=
  fdiv (Fin (of_nat (intersection tau fused ground_truth)))
       (Fin (of_nat (union tau fused ground_truth))).

Definition binary_valued (ground_truth : list Qc) : Prop :=
  Forall (fun g => g = 0 \/ g = 1) ground_truth.

(** *** Inference orchestrator *)

(** Every fused voxel is (left voxel + right voxel) / 2. *)
Definition elementwise_mean (left right : list Qc) : list Qc :=
  zip_with (fun l r => (l + r) / of_nat 2) left right.

(** Stacking the two volumes along a new axis and averaging over it:
    the result has the shape of the two estimates. *)
Definition stack_mean (left right : tensor) : tensor :=
  zip_with (zip_with elementwise_mean) left right.

(** The voxel values of a tensor, in order. *)
Definition voxels (t : tensor) : list Qc := concat (concat t).

(** *** Sample index builder *)

(** The descriptor of a sample: the four per-view paths for the view
    indexes 0..N-1 and the volume path. *)
Definition descriptor (cfg : data_loaders.SHAPENET) (total_views : Z)
    (taxonomy sample : string) : data_loaders.file_entry :=
  let views := data_loaders.range total_views in
  {| data_loaders.entry_taxonomy_name := taxonomy;
     data_loaders.sample_name := sample;
     data_loaders.left_rgb_images :=
       map (data_loaders.LEFT_RENDERING_PATH cfg taxonomy sample) views;
     data_loaders.right_rgb_images :=
       map (data_loaders.RIGHT_RENDERING_PATH cfg taxonomy sample) views;
     data_loaders.left_disp_images :=
       map (data_loaders.LEFT_DISP_PATH cfg taxonomy sample) views;
     data_loaders.right_disp_images :=
       map (data_loaders.RIGHT_DISP_PATH cfg taxonomy sample) views;
     data_loaders.volume := data_loaders.VOLUME_PATH cfg taxonomy sample |}.

(** Whether the volume file of a sample is on the storage backend. *)
Definition volume_exists (cfg : data_loaders.SHAPENET) (os_path_exists : string -> bool)
    (taxonomy sample : string) : bool :=
  os_path_exists (data_loaders.VOLUME_PATH cfg taxonomy sample).

Definition split_of (dataset_type : data_loaders.DatasetType)
    (t : data_loaders.taxonomy) : list string :=
  match dataset_type with
  | data_loaders.TRAIN => data_loaders.train t
  | data_loaders.TEST => data_loaders.test t
  | data_loaders.VAL => data_loaders.val t
  end.

(** *** Sample loader *)

(** The four files of one view, read in the order of the loader: the two
    colour images, then the two disparity maps. *)
Definition read_view {ndarray} (astype_float32 : ndarray -> ndarray)
    (fs : data_loaders.storage ndarray)
    (left_rgb right_rgb left_disp right_disp : string)
  : outcome (ndarray * ndarray * ndarray * ndarray) :=
  bind (data_loaders.imread_astype astype_float32 (data_loaders.cv2_imread fs left_rgb))
    (fun l =>
  bind (data_loaders.imread_astype astype_float32 (data_loaders.cv2_imread fs right_rgb))
    (fun r =>
  bind (data_loaders.pyexr_get fs left_disp "Disparity.Z"%string)
    (fun ld =>
  bind (data_loaders.pyexr_get fs right_disp "Disparity.Z"%string)
    (fun rd => Return (l, r, astype_float32 ld, astype_float32 rd))))).

(** *** Report aggregator *)

Section Aggregator.

Variable F : Type.
Variable A : arithmetic F.

(** The sum of a list of values, from the left. *)
Definition sum_from (l : list F) : F :=
  match l with
  | [] => f_zero A
  | x :: rest => fold_left (f_add A) rest x
  end.

(** Elementwise arithmetic mean of vectors with [k] entries. *)
Definition mean_vector (k : nat) (vectors : list (list F)) : list F :=
  map (fun j => f_div A (sum_from (map (fun v => nth j v (f_nan A)) vectors))
                        (f_of_int A (length vectors)))
      (seq 0 k).




(** The rows of the report: for every bucket its sample count and its
    mean vector. *)
Definition report_rows (k : nat) (test_iou : dict (bucket F))
  : dict (nat * ndarray F) :=
  map (fun entry => (fst entry,
                     (n_samples (snd entry), Arr1 (mean_vector k (core_test.iou (snd entry))))))
      test_iou.

End Aggregator.

(** At least one vector, and every vector with [k] entries. *)
Definition uniform {F} (k : nat) (vectors : list (list F)) : Prop :=
  vectors <> [] /\ Forall (fun v => length v = k) vectors.

(** Every bucket holds at least one IoU vector, and every IoU vector of
    every bucket has [k] entries. *)
Definition well_formed {F} (k : nat) (test_iou : dict (bucket F)) : Prop :=
  Forall (fun entry => uniform k (core_test.iou (snd entry))) test_iou.


End spec.

(* ================================================================== *)
(** ** A small data set on disk, for the examples *)

Module fixtures.

Import Py data_loaders.
Local Open Scope string_scope.

(** A storage on which every file of the index is found; the volume
    container holds what [payload] says. *)
Definition storage_with (payload : dict nat) : storage nat :=
  {| cv2_imread := fun _ => Some 0%nat;
     pyexr_get := fun _ _ => Return 0%nat;
     scipy_io_loadmat := fun _ => Return payload |}.

(** Path templates that name the view by its digit. *)
Definition digit (i : Z) : string := String (Ascii.ascii_of_nat (48 + Z.to_nat i)) "".

Definition shapenet : SHAPENET :=
  {| LEFT_RENDERING_PATH := fun t s i => t ++ "/" ++ s ++ "/left/" ++ digit i ++ ".png";
     RIGHT_RENDERING_PATH := fun t s i => t ++ "/" ++ s ++ "/right/" ++ digit i ++ ".png";
     LEFT_DISP_PATH := fun t s i => t ++ "/" ++ s ++ "/left/" ++ digit i ++ ".exr";
     RIGHT_DISP_PATH := fun t s i => t ++ "/" ++ s ++ "/right/" ++ digit i ++ ".exr";
     VOLUME_PATH := fun t s => t ++ "/" ++ s ++ "/volume.mat" |}.

(** A storage that holds the four files of view 1 of the sample a1 and
    its volume, and no other file. *)
Definition storage_of_view_1 : storage nat :=
  {| cv2_imread := fun path =>
       if String.eqb path "02691156/a1/left/1.png" then Some 1%nat
       else if String.eqb path "02691156/a1/right/1.png" then Some 2%nat
       else None;
     pyexr_get := fun path _ =>
       if String.eqb path "02691156/a1/left/1.exr" then Return 3%nat
       else if String.eqb path "02691156/a1/right/1.exr" then Return 4%nat
       else Raise IOError;
     scipy_io_loadmat := fun path =>
       if String.eqb path "02691156/a1/volume.mat"
       then Return [("__header__", 0%nat); ("__version__", 0%nat);
                    ("__globals__", 0%nat); ("Volume", 7%nat)]
       else Raise IOError |}.

Definition one_sample : list file_entry :=
  [ {| entry_taxonomy_name := "02691156"; sample_name := "a1";
       left_rgb_images := ["l0.png"]; right_rgb_images := ["r0.png"];
       left_disp_images := ["l0.exr"]; right_disp_images := ["r0.exr"];
       volume := "a1.mat" |} ].

End fixtures.

(* ================================================================== *)
(** ** core/test.py, lines 35 and 162-189: the printed report *)

Module test_report.

Import Py Float core_test.
Local Open Scope string_scope.
Local Open Scope list_scope.
Local Open Scope py_scope.

(** Line 35: [{t['taxonomy_id']: t for t in taxonomies}]. *)
Definition taxonomy_dict (taxonomies : list data_loaders.taxonomy)
  : dict data_loaders.taxonomy :=
  fold_left (fun d t => dict_set (data_loaders.taxonomy_id t) t d) taxonomies [].

(** [np.maximum]: nan wins. *)
Definition fmaximum (a b : fval) : fval :=
  match a, b with
  | NaN, _ | _, NaN => NaN
  | PInf, _ | _, PInf => PInf
  | NInf, x | x, NInf => x
  | Fin x, Fin y => if Qcleb x y then Fin y else Fin x
  end.

(** [np.max(a)] *)
Definition np_max (a : ndarray fval) : outcome fval :=
  match a with
  | Arr0 x => Return x
  | Arr1 [] => Raise ValueError
  | Arr1 (x :: v) => Return (fold_left fmaximum v x)
  end.

(** [for x in a] *)
Definition iterate (a : ndarray fval) : outcome (list fval) :=
  match a with
  | Arr0 _ => Raise TypeError
  | Arr1 v => Return v
  end.

(** One call of [print]: what is written and the [end] after it. *)
Record print_call := { text : string; end_ : string }.

Definition tab : string := String (Ascii.ascii_of_nat 9) "".
Definition newline : string := String (Ascii.ascii_of_nat 10) "".

Fixpoint spaces (n : nat) : string :=
  match n with
  | O => ""
  | S n' => (" " ++ spaces n')%string
  end.

(** A [str] is embedded by its UTF-8 bytes; the bytes 10xxxxxx continue
    a character. *)
Definition continuation_byte (c : Ascii.ascii) : bool :=
  match c with
  | Ascii.Ascii _ _ _ _ _ _ b6 b7 => b7 && negb b6
  end.

(** [len(s)]: the number of characters. *)
Fixpoint str_len (s : string) : nat :=
  match s with
  | EmptyString => 0
  | String c rest => if continuation_byte c then str_len rest else S (str_len rest)
  end.

(** [s.ljust(width)] *)
Definition ljust (width : nat) (s : string) : string :=
  (s ++ spaces (width - str_len s))%string.

Section Report.

(** The conversions ['t=%.2f' % th], ['%d' % n] and ['%.4f' % x]. *)
Variable format_thresh : Qc -> string.
Variable format_d : nat -> string.
Variable format_iou : fval -> string.

(** Lines 170-175: the body of the table. *)
Fixpoint print_body (taxonomies : dict data_loaders.taxonomy)
    (test_iou : dict (nat * ndarray fval)) (out : list print_call)
  : outcome (list print_call) :=
  match test_iou with
  | [] => Return out
  | (taxonomy_id, (n_samples, iou)) :: rest =>
      match dict_get taxonomy_id taxonomies with
      | None => Raise (KeyError taxonomy_id)
      | Some t =>
          let out :=
            out ++ [ {| text := ljust 8 (data_loaders.taxonomy_name t); end_ := tab |};
                     {| text := format_d n_samples; end_ := tab |} ] in
          v <- iterate iou ;;
          let out := out ++ map (fun ti => {| text := format_iou ti; end_ := tab |}) v in
          print_body taxonomies rest (out ++ [ {| text := ""; end_ := newline |} ])
      end
  end.

(** Lines 162-189, without the scalars sent to the writer: what is
    printed and the value returned. *)
Definition test_results (VOXEL_THRESH : list Qc)
    (taxonomies : dict data_loaders.taxonomy)
    (test_iou : dict (nat * ndarray fval)) (mean_iou : ndarray fval)
  : outcome (list print_call * fval) :=
  let out :=
    [ {| text := "============================ TEST RESULTS ============================";
         end_ := newline |};
      {| text := "Taxonomy"; end_ := tab |};
      {| text := "#Sample"; end_ := tab |} ] in
  let out := out ++ map (fun th => {| text := format_thresh th; end_ := tab |})
                        VOXEL_THRESH in
  let out := out ++ [ {| text := ""; end_ := newline |} ] in
  out <- print_body taxonomies test_iou out ;;
  let out := out ++ [ {| text := "Overall "; end_ := (tab ++ tab)%string |} ] in
  v <- iterate mean_iou ;;
  let out := out ++ map (fun mi => {| text := format_iou mi; end_ := tab |}) v in
  let out := out ++ [ {| text := newline; end_ := newline |} ] in
  max_iou <- np_max mean_iou ;;
  Return (out, max_iou).

(** Lines 156-189: the testing results computed from the dictionary
    [test_iou] and printed. *)
Definition output_testing_results (VOXEL_THRESH : list Qc)
    (taxonomies : dict data_loaders.taxonomy)
    (test_iou : dict (bucket fval)) (n_samples : nat)
  : outcome (list print_call * fval) :=
  r <- testing_results exact test_iou n_samples ;;
  test_results VOXEL_THRESH taxonomies (fst r) (snd r).

End Report.

End test_report.

(* ================================================================== *)
(** ** utils/data_loaders.py: [ShapeNetDataset.__len__], [__getitem__] *)

Module dataset.

Import Py data_loaders.
Local Open Scope py_scope.

Section ShapeNetDataset.

Variable ndarray : Type.
Variable astype_float32 : ndarray -> ndarray.

(** [__len__] *)
Definition len (file_list : list file_entry) : nat := length file_list.

(** [__getitem__]; [transforms] is [None] or a callable on the four
    images. *)
Definition getitem
    (transforms : option (ndarray * ndarray * ndarray * ndarray ->
                          outcome (ndarray * ndarray * ndarray * ndarray)))
    (fs : storage ndarray) (file_list : list file_entry) (idx : nat) (draw : nat)
  : outcome (datum ndarray) :=
  d <- get_datum astype_float32 fs file_list idx draw ;;
  match transforms with
  | Some f =>
      r <- f (left_rgb_image d, right_rgb_image d, left_disp_image d, right_disp_image d) ;;
      let '(left_rgb, right_rgb, left_disp, right_disp) := r in
      Return {| d_taxonomy_name := d_taxonomy_name d;
                d_sample_name := d_sample_name d;
                left_rgb_image := left_rgb;
                right_rgb_image := right_rgb;
                left_disp_image := left_disp;
                right_disp_image := right_disp;
                d_volume := d_volume d |}
  | None => Return d
  end.

End ShapeNetDataset.

End dataset.

(* ================================================================== *)
(** ** Predicates used to state properties of the code *)

Module props.

Import Py Float core_test data_loaders.
Local Open Scope Qc_scope.


(** The order of the values; nan is not comparable. *)
Definition fle (a b : fval) : Prop :=
  match a, b with
  | NaN, _ | _, NaN => False
  | NInf, _ | _, PInf => True
  | Fin x, Fin y => x <= y
  | _, _ => False
  end.

Definition is_warning (l : line) : bool :=
  match l with
  | WARN_ignore_sample _ _ => true
  | _ => false
  end.

(** Every file that an entry of the index names can be read, and its
    volume container holds the field "Volume". *)
Definition readable {ndarray} (fs : storage ndarray) (e : file_entry) : Prop :=
  (forall p, In p (left_rgb_images e ++ right_rgb_images e) ->
             exists a, cv2_imread fs p = Some a)
  /\ (forall p, In p (left_disp_images e ++ right_disp_images e) ->
                exists a, pyexr_get fs p "Disparity.Z"%string = Return a)
  /\ (exists payload v, scipy_io_loadmat fs (volume e) = Return payload
                        /\ dict_get "Volume"%string payload = Some v).

(** The last taxonomy of the file with a given id. *)
Definition last_with_id (taxonomy_file : list taxonomy) (id : string) : option taxonomy :=
  find (fun t => String.eqb (taxonomy_id t) id) (rev taxonomy_file).

Definition name_of (taxonomy_file : list taxonomy) (id : string) : string :=
  match last_with_id taxonomy_file id with
  | Some t => taxonomy_name t
  | None => EmptyString
  end.

(** A line of the table: cells that end in a tab, then a newline. *)
Definition table_line (cells : list string) : list test_report.print_call :=
  map (fun c => {| test_report.text := c; test_report.end_ := test_report.tab |}) cells
  ++ [ {| test_report.text := EmptyString; test_report.end_ := test_report.newline |} ].

(** The library reads raise or return; they do not exit the process. *)
Definition reads_do_not_exit {ndarray} (fs : storage ndarray) : Prop :=
  (forall p c status, pyexr_get fs p c <> Exit status)
  /\ (forall p status, scipy_io_loadmat fs p <> Exit status).

(** Values of a volume between two bounds. *)
Definition bounded (lo hi : Qc) (v : list Qc) : Prop :=
  Forall (fun x => lo <= x /\ x <= hi) v.

(** The bucket that line 129 creates. *)
Definition new_bucket {F} : bucket F := {| n_samples := 0; iou := [] |}.

(** A bucket after lines 130-131 have recorded one more sample in it. *)
Definition one_more {F} (sample_iou : list F) (b : bucket F) : bucket F :=
  {| n_samples := n_samples b + 1; iou := iou b ++ [sample_iou] |}.

(** The bucket of a taxonomy, new if the taxonomy has none. *)
Definition bucket_of {F} (taxonomy_id : string) (test_iou : dict (bucket F)) : bucket F :=
  match dict_get taxonomy_id test_iou with
  | Some b => b
  | None => new_bucket
  end.


End props.

(* ================================================================== *)
(** ** Arithmetic of the embedded floating-point values *)

(** Equality of evaluated values: the rationals are compared by their
    fractions. *)
Ltac by_evaluation :=
  vm_compute; repeat (f_equal; try (apply Qc_is_canon; reflexivity)).

(** A ground truth written with the constants 0 and 1 is binary valued. *)
Ltac binary_valued :=
  repeat (constructor; [ (left; reflexivity) || (right; reflexivity) | ]);
  constructor.

Section FloatFacts.

Import Float.
Local Open Scope Qc_scope.

Lemma Qcleb_le (x y : Qc) : Qcleb x y = true <-> x <= y.
Proof. unfold Qcleb, Qcle. apply Qle_bool_iff. Qed.

Lemma Qceqb_eq (x y : Qc) : Qceqb x y = true <-> x = y.
Proof.
  unfold Qceqb. rewrite Qeq_bool_iff. split.
  - apply Qc_is_canon.
  - intros ->. reflexivity.
Qed.

Lemma Qceqb_neq (x y : Qc) : Qceqb x y = false <-> x <> y.
Proof.
  rewrite <- Qceqb_eq. destruct (Qceqb x y); split; congruence.
Qed.

Lemma of_nat_0 : of_nat 0 = 0.
Proof. apply Qc_is_canon. reflexivity. Qed.

Lemma of_nat_S (n : nat) : of_nat (S n) = of_nat n + 1.
Proof.
  apply Qc_is_canon. unfold of_nat, Qcplus, Q2Qc; cbn [this].
  rewrite !Qred_correct. rewrite Nat2Z.inj_succ. unfold Z.succ.
  rewrite inject_Z_plus. reflexivity.
Qed.



Lemma of_nat_le (n m : nat) : (n <= m)%nat -> of_nat n <= of_nat m.
Proof.
  intros H. unfold Qcle, of_nat, Q2Qc; cbn [this].
  rewrite !Qred_correct. rewrite <- Zle_Qle. lia.
Qed.

Lemma of_nat_pos (n : nat) : (0 < n)%nat -> 0 < of_nat n.
Proof.
  intros H. unfold Qclt, of_nat, Q2Qc; cbn [this].
  rewrite !Qred_correct. change 0%Q with (inject_Z 0).
  rewrite <- Zlt_Qlt. lia.
Qed.

Lemma of_nat_neq_0 (n : nat) : (0 < n)%nat -> of_nat n <> 0.
Proof.
  intros H E. apply of_nat_pos in H. rewrite E in H.
  revert H. apply Qcle_not_lt, Qcle_refl.
Qed.

Lemma of_nat_eqb_pos (n : nat) : (0 < n)%nat -> Qceqb (of_nat n) 0 = false.
Proof. intros H. apply Qceqb_neq, of_nat_neq_0, H. Qed.

(** Dividing a finite value by a positive count. *)
Lemma fdiv_count (x : Qc) (n : nat) :
  (0 < n)%nat -> fdiv (Fin x) (Fin (of_nat n)) = Fin (x / of_nat n).
Proof. intros H. simpl. rewrite of_nat_eqb_pos by exact H. reflexivity. Qed.

End FloatFacts.

(* ================================================================== *)
(** ** Lists built by a loop that appends *)

Section Loops.

Import Float.

Lemma fold_left_append {A B} (f : A -> B) (l : list A) (init : list B) :
  fold_left (fun acc x => acc ++ [f x]) l init = init ++ map f l.
Proof.
  revert init. induction l as [|x l IH]; intros init; simpl.
  - now rewrite app_nil_r.
  - rewrite IH, <- app_assoc. reflexivity.
Qed.

Lemma zip_with_length {A B C} (f : A -> B -> C) (l : list A) (k : list B) :
  length l = length k -> length (zip_with f l k) = length l.
Proof.
  revert k. induction l as [|x l IH]; intros [|y k] H; simpl in *; try congruence.
  f_equal. apply IH. congruence.
Qed.

Lemma zip_with_nth {A B C} (f : A -> B -> C) (l : list A) (k : list B) j da db dc :
  (j < length l)%nat -> length l = length k ->
  nth j (zip_with f l k) dc = f (nth j l da) (nth j k db).
Proof.
  revert k j. induction l as [|x l IH]; intros [|y k] [|j] Hj H; simpl in *;
    try lia; try reflexivity.
  apply IH; lia.
Qed.

Lemma map_nth_seq {A} (l : list A) (d : A) :
  map (fun j => nth j l d) (seq 0 (length l)) = l.
Proof.
  induction l as [|x l IH]; simpl; [reflexivity|].
  f_equal. rewrite <- seq_shift, map_map. exact IH.
Qed.

End Loops.

(* ================================================================== *)
(** ** IoU per sample *)

Section SampleIoU.

Import Float core_test.
Local Open Scope Qc_scope.

Lemma iou_at_parts th gen gt :
  iou_at th gen gt =
  fdiv (Fin (intersection_at th gen gt)) (Fin (of_nat (union_at th gen gt))).
Proof. reflexivity. Qed.

Lemma sample_iou_map thresholds gen gt :
  sample_iou thresholds gen gt = map (fun th => iou_at th gen gt) thresholds.
Proof. unfold sample_iou. now rewrite fold_left_append. Qed.

Lemma sample_iou_length thresholds gen gt :
  length (sample_iou thresholds gen gt) = length thresholds.
Proof. rewrite sample_iou_map. apply length_map. Qed.

Lemma intersection_counts th gen gt a :
  spec.binary_valued gt ->
  fold_left Qcplus (zip_with Qcmult (ge_float gen th) gt) a =
  a + of_nat (spec.intersection th gen gt).
Proof.
  unfold spec.intersection, spec.count_true, spec.binarize, spec.occupied, ge_float.
  revert gt a. induction gen as [|x gen IH]; intros [|g gt] a Hb; simpl;
    try (rewrite of_nat_0; ring).
  inversion Hb as [|? ? Hg Hgt]; subst.
  rewrite (IH gt _ Hgt). destruct Hg as [-> | ->].
  - replace (Qceqb 0 1) with false by (symmetry; now apply Qceqb_neq).
    rewrite andb_false_r. ring.
  - replace (Qceqb 1 1) with true by (symmetry; now apply Qceqb_eq).
    rewrite andb_true_r. destruct (Qcleb th x); simpl length.
    + rewrite of_nat_S. ring.
    + ring.
Qed.

Lemma intersection_at_spec th gen gt :
  spec.binary_valued gt ->
  intersection_at th gen gt = of_nat (spec.intersection th gen gt).
Proof.
  intros Hb. unfold intersection_at, tensor_sum.
  rewrite intersection_counts by exact Hb. ring.
Qed.

Lemma union_at_spec th gen gt : union_at th gen gt = spec.union th gen gt.
Proof.
  unfold union_at, ge_count, spec.union, spec.count_true, spec.binarize, ge_float.
  revert gt. induction gen as [|x gen IH]; intros [|g gt]; simpl; try reflexivity.
  specialize (IH gt).
  destruct (Qcleb th x); simpl;
    match goal with |- context [if ?c then _ else _] => destruct c end;
    simpl; congruence.
Qed.

Lemma intersection_le_union th gen gt :
  (spec.intersection th gen gt <= spec.union th gen gt)%nat.
Proof.
  unfold spec.intersection, spec.union, spec.count_true, spec.binarize, spec.occupied.
  revert gt. induction gen as [|x gen IH]; intros [|g gt]; simpl; try lia.
  specialize (IH gt).
  destruct (Qcleb th x); simpl.
  - destruct (Qceqb g 1) eqn:E; simpl.
    + apply Qceqb_eq in E; subst g.
      replace (Qcleb 1 (1 + 1)) with true by (symmetry; now apply Qcleb_le).
      simpl. lia.
    + destruct (Qcleb 1 (1 + g)); simpl; lia.
  - destruct (Qcleb 1 (0 + g)); simpl; lia.
Qed.

Lemma ratio_in_unit_interval (i u : nat) :
  (i <= u)%nat -> (0 < u)%nat -> 0 <= of_nat i / of_nat u /\ of_nat i / of_nat u <= 1.
Proof.
  intros Hiu Hu.
  pose proof (of_nat_pos Hu) as Hpos.
  pose proof (of_nat_neq_0 Hu) as Hne.
  assert (E : of_nat i / of_nat u * of_nat u = of_nat i) by (field; exact Hne).
  split; apply Qcmult_lt_0_le_reg_r with (z := of_nat u); try exact Hpos; rewrite E.
  - replace (0 * of_nat u) with (of_nat 0) by (rewrite of_nat_0; ring).
    apply of_nat_le. lia.
  - replace (1 * of_nat u) with (of_nat u) by ring.
    apply of_nat_le, Hiu.
Qed.

End SampleIoU.

Section SampleIoUClaims.

Import Float core_test.
Local Open Scope Qc_scope.

(** C2.  For a fused volume and a ground truth of the same shape with
    values in {0,1}, the IoU vector of lines 120-125 lists, in the order
    of the configured thresholds, the value the specification describes:
    the volume binarised at the threshold (value >= threshold), the
    intersection as the number of positions set in both, the union as the
    number of positions where prediction plus ground truth is >= 1, and
    their quotient. *)
Theorem sample_iou_refines_spec (thresholds generated_volume ground_truth_volume : list Qc) :
  length generated_volume = length ground_truth_volume ->
  spec.binary_valued ground_truth_volume ->
  sample_iou thresholds generated_volume ground_truth_volume =
  map (fun tau => spec.iou tau generated_volume ground_truth_volume) thresholds.
Proof.
  intros _ Hb. rewrite sample_iou_map. apply map_ext. intros th.
  rewrite iou_at_parts. unfold spec.iou.
  rewrite intersection_at_spec by exact Hb.
  now rewrite union_at_spec.
Qed.

Lemma sample_iou_refines_spec_witness :
  let thresholds := [Q2Qc (3 # 10); Q2Qc (1 # 2)] in
  let fused := [Q2Qc (1 # 10); Q2Qc (4 # 10); Q2Qc (6 # 10); Q2Qc (9 # 10)] in
  let truth := [0; 1; 1; 0] in
  length fused = length truth /\
  spec.binary_valued truth /\
  sample_iou thresholds fused truth = map (fun tau => spec.iou tau fused truth) thresholds.
Proof.
  intros thresholds fused truth.
  assert (Hb : spec.binary_valued truth)
    by binary_valued.
  split; [reflexivity | split; [exact Hb |]].
  apply (@sample_iou_refines_spec thresholds fused truth); [reflexivity | exact Hb].
Defined.

(** C7.  For a fused volume and a ground truth of the same shape with
    values in {0,1} and any threshold, when the union computed at line
    124 is strictly positive the IoU of line 125 is a finite number in
    the closed interval [0,1]. *)
Theorem iou_in_unit_interval (th : Qc) (generated_volume ground_truth_volume : list Qc) :
  length generated_volume = length ground_truth_volume ->
  spec.binary_valued ground_truth_volume ->
  (0 < union_at th generated_volume ground_truth_volume)%nat ->
  exists q, iou_at th generated_volume ground_truth_volume = Fin q /\ 0 <= q /\ q <= 1.
Proof.
  intros _ Hb Hu. rewrite iou_at_parts.
  rewrite intersection_at_spec by exact Hb.
  rewrite fdiv_count by exact Hu.
  eexists; split; [reflexivity|].
  apply ratio_in_unit_interval; [|exact Hu].
  rewrite union_at_spec. apply intersection_le_union.
Qed.

Lemma iou_in_unit_interval_witness :
  let fused := [Q2Qc (1 # 10); Q2Qc (4 # 10); Q2Qc (6 # 10); Q2Qc (9 # 10)] in
  let truth := [0; 1; 1; 0] in
  exists q, iou_at (Q2Qc (1 # 2)) fused truth = Fin q /\ 0 <= q /\ q <= 1.
Proof.
  intros fused truth.
  apply (@iou_in_unit_interval (Q2Qc (1 # 2)) fused truth).
  - reflexivity.
  - binary_valued.
  - vm_compute. lia.
Defined.

End SampleIoUClaims.

(* ================================================================== *)
(** ** Updates of a dictionary *)

Section Dicts.

Import Py.

Context {V : Type}.

Lemma dict_in_false (k : string) (d : dict V) :
  dict_in k d = false <-> ~ In k (map fst d).
Proof.
  induction d as [|[k' v'] d IH]; simpl; [tauto|].
  destruct (String.eqb k k') eqn:E.
  - apply String.eqb_eq in E. subst k'. split; [discriminate | intros H; exfalso; auto].
  - apply String.eqb_neq in E. rewrite IH. split.
    + intros H [H'|H']; [now subst | auto].
    + auto.
Qed.

Lemma dict_in_get (k : string) (d : dict V) :
  dict_in k d = true <-> exists v, dict_get k d = Some v.
Proof.
  induction d as [|[k' v'] d IH]; simpl.
  - split; [discriminate | intros [v H]; discriminate].
  - destruct (String.eqb k k'); [|exact IH].
    split; [intros _; now exists v' | reflexivity].
Qed.

Lemma dict_get_absent (k : string) (d : dict V) :
  dict_in k d = false -> dict_get k d = None.
Proof.
  intros H. destruct (dict_get k d) as [v|] eqn:E; [|reflexivity].
  assert (H' : dict_in k d = true) by (apply dict_in_get; now exists v).
  congruence.
Qed.

Lemma dict_get_In (k : string) (v : V) (d : dict V) :
  dict_get k d = Some v -> In (k, v) d.
Proof.
  induction d as [|[k' v'] d IH]; simpl; [discriminate|].
  destruct (String.eqb k k') eqn:E.
  - apply String.eqb_eq in E. intros H. inversion H; subst. now left.
  - intros H. right. now apply IH.
Qed.

Lemma dict_set_absent (k : string) (v : V) (d : dict V) :
  dict_in k d = false -> dict_set k v d = d ++ [(k, v)].
Proof.
  induction d as [|[k' v'] d IH]; simpl; [reflexivity|].
  destruct (String.eqb k k'); [discriminate|]. intros H. now rewrite IH.
Qed.

Lemma dict_update_new (g : V -> V) (k : string) (v : V) (d : dict V) :
  dict_in k d = false -> dict_update k g (d ++ [(k, v)]) = d ++ [(k, g v)].
Proof.
  induction d as [|[k' v'] d IH]; simpl.
  - now rewrite String.eqb_refl.
  - destruct (String.eqb k k'); [discriminate|]. intros H. now rewrite IH.
Qed.

Lemma dict_update_update (g h : V -> V) (k : string) (d : dict V) :
  dict_update k h (dict_update k g d) = dict_update k (fun v => h (g v)) d.
Proof.
  induction d as [|[k' v'] d IH]; simpl; [reflexivity|].
  destruct (String.eqb k k') eqn:E; simpl; rewrite E; [reflexivity|].
  now rewrite IH.
Qed.

Lemma dict_update_keys (g : V -> V) (k : string) (d : dict V) :
  map fst (dict_update k g d) = map fst d.
Proof.
  induction d as [|[k' v'] d IH]; simpl; [reflexivity|].
  destruct (String.eqb k k'); simpl; [reflexivity|]. now rewrite IH.
Qed.

Lemma dict_get_update (g : V -> V) (k : string) (d : dict V) :
  dict_get k (dict_update k g d) = option_map g (dict_get k d).
Proof.
  induction d as [|[k' v'] d IH]; simpl; [reflexivity|].
  destruct (String.eqb k k') eqn:E; simpl; rewrite E; [reflexivity | exact IH].
Qed.

Lemma dict_get_update_other (g : V -> V) (k k' : string) (d : dict V) :
  k' <> k -> dict_get k' (dict_update k g d) = dict_get k' d.
Proof.
  intros Hk. induction d as [|[k0 v0] d IH]; simpl; [reflexivity|].
  destruct (String.eqb k k0) eqn:E; simpl.
  - apply String.eqb_eq in E. subst k0.
    apply String.eqb_neq in Hk. now rewrite Hk.
  - destruct (String.eqb k' k0); [reflexivity | exact IH].
Qed.

Lemma dict_get_app (k : string) (d d' : dict V) :
  dict_get k (d ++ d') =
  match dict_get k d with
  | Some v => Some v
  | None => dict_get k d'
  end.
Proof.
  induction d as [|[k0 v0] d IH]; simpl; [reflexivity|].
  destruct (String.eqb k k0); [reflexivity | exact IH].
Qed.

Lemma dict_update_Forall (P : string * V -> Prop) (g : V -> V) (k : string) (d : dict V) :
  (forall k' v, P (k', v) -> P (k', g v)) ->
  Forall P d -> Forall P (dict_update k g d).
Proof.
  intros Hg. induction 1 as [|[k' v'] d Hx Hd IH]; simpl; [constructor|].
  destruct (String.eqb k k'); constructor; auto.
Qed.

Lemma dict_get_map {W} (f : V -> W) (k : string) (d : dict V) :
  dict_get k (map (fun entry => (fst entry, f (snd entry))) d) =
  option_map f (dict_get k d).
Proof.
  induction d as [|[k' v'] d IH]; simpl; [reflexivity|].
  destruct (String.eqb k k'); [reflexivity | exact IH].
Qed.

End Dicts.

(* ================================================================== *)
(** ** Lines 128-131: one sample recorded *)

Section Accumulator.

Import Py Float core_test.

Context {F : Type}.

Lemma record_iou_cases (test_iou : dict (bucket F)) (t : string) (v : list F) :
  record_iou test_iou t v =
  if dict_in t test_iou
  then dict_update t (props.one_more v) test_iou
  else test_iou ++ [(t, props.one_more v props.new_bucket)].
Proof.
  unfold record_iou. destruct (dict_in t test_iou) eqn:E; simpl negb; cbv iota.
  - now rewrite dict_update_update.
  - rewrite dict_set_absent by exact E. rewrite dict_update_update.
    now rewrite dict_update_new by exact E.
Qed.

Lemma record_iou_keys (test_iou : dict (bucket F)) (t : string) (v : list F) :
  map fst (record_iou test_iou t v) =
  if dict_in t test_iou then map fst test_iou else map fst test_iou ++ [t].
Proof.
  rewrite record_iou_cases. destruct (dict_in t test_iou).
  - apply dict_update_keys.
  - now rewrite map_app.
Qed.

Lemma record_iou_get (test_iou : dict (bucket F)) (t : string) (v : list F) :
  dict_get t (record_iou test_iou t v) =
  Some (props.one_more v (props.bucket_of t test_iou)).
Proof.
  rewrite record_iou_cases. unfold props.bucket_of.
  destruct (dict_in t test_iou) eqn:E.
  - rewrite dict_get_update. apply dict_in_get in E as [b E]. now rewrite E.
  - rewrite dict_get_app, dict_get_absent by exact E. simpl. now rewrite String.eqb_refl.
Qed.


Lemma record_iou_get_other (test_iou : dict (bucket F)) (t t' : string) (v : list F) :
  t' <> t -> dict_get t' (record_iou test_iou t v) = dict_get t' test_iou.
Proof.
  intros Ht. rewrite record_iou_cases. destruct (dict_in t test_iou).
  - now apply dict_get_update_other.
  - rewrite dict_get_app. destruct (dict_get t' test_iou); [reflexivity|].
    simpl. apply String.eqb_neq in Ht. now rewrite Ht.
Qed.



Lemma one_more_uniform (k : nat) (v : list F) (b : bucket F) :
  length v = k ->
  Forall (fun w => length w = k) (iou b) ->
  spec.uniform k (iou (props.one_more v b)).
Proof.
  intros Hv Hb. split; simpl.
  - destruct (iou b); discriminate.
  - apply Forall_app. split; [exact Hb | now constructor].
Qed.

Lemma record_iou_well_formed (k : nat) (test_iou : dict (bucket F)) (t : string)
    (v : list F) :
  length v = k ->
  spec.well_formed k test_iou ->
  spec.well_formed k (record_iou test_iou t v).
Proof.
  intros Hv Hwf. rewrite record_iou_cases. unfold spec.well_formed in *.
  destruct (dict_in t test_iou).
  - apply dict_update_Forall; [|exact Hwf].
    intros k' b [_ Hb]. now apply one_more_uniform.
  - apply Forall_app. split; [exact Hwf|]. constructor; [|constructor].
    simpl snd. apply one_more_uniform; [exact Hv | constructor].
Qed.

End Accumulator.

(* ================================================================== *)
(** ** The reductions of lines 156-160 *)

Section Reductions.

Import Py Float core_test.

Context {F : Type}.
Variable A : arithmetic F.

Lemma fold_zip_columns (f : F -> F -> F) (d : F) k (rs : list (list F)) (r : list F) :
  length r = k ->
  Forall (fun v => length v = k) rs ->
  fold_left (zip_with f) rs r =
  map (fun j => fold_left f (map (fun v => nth j v d) rs) (nth j r d)) (seq 0 k).
Proof.
  intros Hr Hrs. revert r Hr.
  induction Hrs as [|a rs Ha Hrs IH]; intros r Hr; simpl.
  - subst k. symmetry. apply map_nth_seq.
  - rewrite IH by (rewrite zip_with_length; congruence).
    apply map_ext_in. intros j Hj. apply in_seq in Hj.
    rewrite (zip_with_nth f r a d d d) by lia. reflexivity.
Qed.

Lemma column_sums_spec k (rows : list (list F)) :
  rows <> [] ->
  Forall (fun v => length v = k) rows ->
  column_sums A rows =
  map (fun j => spec.sum_from A (map (fun v => nth j v (f_nan A)) rows)) (seq 0 k).
Proof.
  destruct rows as [|r rs]; [congruence|]. intros _ H.
  pose proof (Forall_inv H) as Hr. pose proof (Forall_inv_tail H) as Hrs.
  simpl column_sums. now rewrite (@fold_zip_columns (f_add A) (f_nan A) k rs r Hr Hrs).
Qed.

Lemma np_mean_axis0_spec k (rows : list (list F)) :
  spec.uniform k rows ->
  np_mean_axis0 A rows = Return (Arr1 (spec.mean_vector A k rows)).
Proof.
  intros [Hne H]. pose proof (@column_sums_spec k rows Hne H) as Hc.
  destruct rows as [|r rs]; [congruence|].
  unfold np_mean_axis0.
  pose proof (Forall_inv H) as Hr. pose proof (Forall_inv_tail H) as Hrs.
  simpl in Hr.
  replace (forallb (fun r' => length r' =? length r) rs) with true.
  - rewrite Hc. unfold spec.mean_vector. now rewrite map_map.
  - symmetry. apply forallb_forall. intros v Hv.
    rewrite Forall_forall in Hrs. apply Nat.eqb_eq. rewrite Hr. now apply Hrs.
Qed.

Lemma mean_vector_length k (rows : list (list F)) :
  length (spec.mean_vector A k rows) = k.
Proof. unfold spec.mean_vector. now rewrite length_map, length_seq. Qed.

Lemma vectors_map k (ws : list (list F)) :
  Forall (fun v => length v = k) ws -> vectors k (map Arr1 ws) = Some ws.
Proof.
  induction 1 as [|w ws Hw _ IH]; simpl; [reflexivity|].
  apply Nat.eqb_eq in Hw. now rewrite Hw, IH.
Qed.

Lemma np_sum_axis0_spec k (ws : list (list F)) :
  ws <> [] ->
  Forall (fun v => length v = k) ws ->
  np_sum_axis0 A (map Arr1 ws) =
  Return (Arr1 (map (fun j => spec.sum_from A (map (fun v => nth j v (f_nan A)) ws))
                    (seq 0 k))).
Proof.
  destruct ws as [|w ws]; [congruence|]. intros _ H.
  pose proof (Forall_inv H) as Hw. pose proof (Forall_inv_tail H) as Hws.
  simpl in Hw. simpl. rewrite Hw, (@vectors_map k ws Hws).
  now rewrite (@fold_zip_columns (f_add A) (f_nan A) k ws w Hw Hws).
Qed.

Lemma nth_map_in_range {X Y} (f : X -> Y) (l : list X) (dx : X) (dy : Y) (j : nat) :
  (j < length l)%nat -> nth j (map f l) dy = f (nth j l dx).
Proof.
  intros H. rewrite (nth_indep (map f l) dy (f dx)) by now rewrite length_map.
  apply map_nth.
Qed.

(** The products of line 159, one vector for every bucket. *)
Lemma output_loop_closed k (test_iou : dict (bucket F)) (acc : list (ndarray F)) :
  spec.well_formed k test_iou ->
  output_loop A test_iou acc =
  Return (spec.report_rows A k test_iou,
          acc ++ map (fun entry =>
                        mul_int A (Arr1 (spec.mean_vector A k (iou (snd entry))))
                                (n_samples (snd entry)))
                     test_iou).
Proof.
  intros Hwf. revert acc.
  induction Hwf as [|[t b] d Hb Hd IH]; intros acc; simpl.
  - now rewrite app_nil_r.
  - simpl in Hb. rewrite (np_mean_axis0_spec Hb). simpl.
    rewrite IH. simpl. now rewrite <- app_assoc.
Qed.

Lemma testing_results_closed k (test_iou : dict (bucket F)) (n : nat) :
  test_iou <> [] ->
  spec.well_formed k test_iou ->
  testing_results A test_iou n =
  Return (spec.report_rows A k test_iou,
          Arr1 (map (fun j =>
                       f_div A
                         (spec.sum_from A
                            (map (fun entry =>
                                    f_mul A (nth j (spec.mean_vector A k (iou (snd entry)))
                                                 (f_nan A))
                                            (f_of_int A (n_samples (snd entry))))
                                 test_iou))
                         (f_of_int A n))
                    (seq 0 k))).
Proof.
  intros Hne Hwf. unfold testing_results.
  rewrite (output_loop_closed [] Hwf). simpl.
  set (w := fun entry : string * bucket F =>
              map (fun x => f_mul A x (f_of_int A (n_samples (snd entry))))
                  (spec.mean_vector A k (iou (snd entry)))).
  replace (map (fun entry : string * bucket F =>
                  Arr1 (map (fun x => f_mul A x (f_of_int A (n_samples (snd entry))))
                            (spec.mean_vector A k (iou (snd entry))))) test_iou)
    with (map Arr1 (map w test_iou)) by now rewrite map_map.
  rewrite (@np_sum_axis0_spec k (map w test_iou)).
  - simpl. do 3 f_equal. rewrite map_map. apply map_ext_in. intros j Hj.
    apply in_seq in Hj. do 2 f_equal. rewrite map_map. apply map_ext. intros entry.
    unfold w.
    apply (@nth_map_in_range _ _ (fun x => f_mul A x (f_of_int A (n_samples (snd entry))))
             _ (f_nan A) (f_nan A) j).
    rewrite mean_vector_length. lia.
  - destruct test_iou; simpl; congruence.
  - apply Forall_forall. intros v Hv. apply in_map_iff in Hv as (entry & <- & _).
    unfold w. rewrite length_map. apply mean_vector_length.
Qed.


End Reductions.

(* ================================================================== *)
(** ** The overall vector and the lengths of the vectors *)

Section ReportClaims.

Import Py Float core_test.
Local Open Scope Qc_scope.
Local Open Scope string_scope.



(** C9.  The dictionary [test_iou] is created without any vector.
    Whenever lines 120-131 run on a dictionary in which every bucket
    holds at least one vector and every vector has as many entries as
    there are configured thresholds, the IoU vector of the sample has
    that many entries, the dictionary they leave has the same property,
    the taxonomy of the sample has a bucket in it, which is its former
    bucket (or a new one) with one more sample and that vector appended,
    and the buckets of the other taxonomies are as they were.  On every
    such dictionary, lines 156-160 give every taxonomy that has a bucket
    a mean vector with as many entries as there are thresholds, whatever
    the arithmetic of the reductions. *)
Theorem iou_vectors_have_threshold_length (thresholds : list Qc) :
  let k := length thresholds in
  spec.well_formed k ([] : dict (bucket fval))
  /\ (forall (test_iou : dict (bucket fval)) (taxonomy_id : string)
             (generated_volume ground_truth_volume : list Qc),
        spec.well_formed k test_iou ->
        let sample := sample_iou thresholds generated_volume ground_truth_volume in
        let test_iou' := record_iou test_iou taxonomy_id sample in
        length sample = k
        /\ spec.well_formed k test_iou'
        /\ dict_get taxonomy_id test_iou' =
           Some (props.one_more sample (props.bucket_of taxonomy_id test_iou))
        /\ forall t, t <> taxonomy_id -> dict_get t test_iou' = dict_get t test_iou)
  /\ (forall (F : Type) (A : arithmetic F) (test_iou : dict (bucket F))
             (n_samples : nat),
        spec.well_formed k test_iou ->
        exists rows mean_iou,
          testing_results A test_iou n_samples = Return (rows, mean_iou)
          /\ forall t b, dict_get t test_iou = Some b ->
               exists m, dict_get t rows = Some (core_test.n_samples b, Arr1 m)
                         /\ length m = k).
Proof.
  intros k. split; [constructor|]. split.
  - intros test_iou taxonomy_id generated_volume ground_truth_volume Hwf sample test_iou'.
    assert (Hlen : length sample = k) by apply sample_iou_length.
    split; [exact Hlen|]. split; [now apply record_iou_well_formed|].
    split; [apply record_iou_get|].
    intros t Ht. now apply record_iou_get_other.
  - intros F A test_iou n_samples Hwf.
    destruct test_iou as [|entry rest] eqn:E.
    + eexists; eexists. split; [reflexivity|]. intros t b H. discriminate H.
    + rewrite <- E in *. eexists; eexists. split.
      * apply testing_results_closed; [rewrite E; discriminate | exact Hwf].
      * intros t b Hb. exists (spec.mean_vector A k (iou b)). split.
        -- unfold spec.report_rows.
           rewrite (dict_get_map
                      (fun b0 : bucket F =>
                         (core_test.n_samples b0,
                          Arr1 (spec.mean_vector A k (iou b0)))) t test_iou).
           now rewrite Hb.
        -- apply mean_vector_length.
Qed.

Lemma iou_vectors_have_threshold_length_witness :
  let thresholds := [Q2Qc 0.3; Q2Qc 0.5] in
  let fused := [Q2Qc 0.1; Q2Qc 0.4; Q2Qc 0.6; Q2Qc 0.9] in
  let test_iou := record_iou [] "02691156" (sample_iou thresholds fused [0; 1; 1; 0]) in
  let sample := sample_iou thresholds fused [1; 1; 1; 0] in
  let test_iou' := record_iou test_iou "02691156" sample in
  length sample = 2%nat
  /\ spec.well_formed 2 test_iou'
  /\ dict_get "02691156" test_iou' =
     Some (props.one_more sample (props.bucket_of "02691156" test_iou))
  /\ forall t, t <> "02691156" -> dict_get t test_iou' = dict_get t test_iou.
Proof.
  intros thresholds fused test_iou sample test_iou'.
  apply (proj1 (proj2 (iou_vectors_have_threshold_length thresholds))
           test_iou "02691156" fused [1; 1; 1; 0]).
  repeat constructor; discriminate.
Defined.

End ReportClaims.

(* ================================================================== *)
(** ** Equal sample counts *)

Section EqualCounts.

Import Py Float core_test.
Local Open Scope Qc_scope.



Lemma Qceqb_pos (c : Qc) : 0 < c -> Qceqb c 0 = false.
Proof.
  intros H. apply Qceqb_neq. intros E. rewrite E in H.
  revert H. apply Qcle_not_lt, Qcle_refl.
Qed.








End EqualCounts.

Section EqualCountsBinary64.

Import Py Float core_test PrimFloat.
Local Open Scope string_scope.


End EqualCountsBinary64.

(* ================================================================== *)
(** ** Fusion of the two volumes *)

Section Fusion.

Import Float core_test.
Local Open Scope Qc_scope.

Lemma map_zip_with {A B C D} (g : C -> D) (f : A -> B -> C) l k :
  map g (zip_with f l k) = zip_with (fun a b => g (f a b)) l k.
Proof.
  revert k. induction l as [|x l IH]; intros [|y k]; simpl; try reflexivity.
  now rewrite IH.
Qed.

Lemma fuse_pair (l r : list Qc) :
  fuse [[l]] [[r]] = [spec.elementwise_mean l r].
Proof.
  unfold fuse, cat_dim1, mean_dim1, spec.elementwise_mean. simpl.
  now rewrite map_zip_with.
Qed.

(** C6, as the code has it.  When each of the two volume estimates has a
    single slice along axis 1 (shape B x 1 x ...) and the two have the
    same shape, concatenating them along axis 1 and averaging over that
    axis gives, for every sample of the batch, the volume whose voxels
    are (left voxel + right voxel) / 2. *)
Theorem fuse_of_single_slices (lefts rights : list (list Qc)) :
  Forall2 (fun l r => length l = length r) lefts rights ->
  fuse (map (fun v => [v]) lefts) (map (fun v => [v]) rights) =
  zip_with spec.elementwise_mean lefts rights.
Proof.
  induction 1 as [|l r lefts rights _ _ IH]; [reflexivity|].
  change (fuse (map (fun v => [v]) (l :: lefts)) (map (fun v => [v]) (r :: rights)))
    with (fuse [[l]] [[r]] ++
          fuse (map (fun v => [v]) lefts) (map (fun v => [v]) rights)).
  now rewrite fuse_pair, IH.
Qed.

Lemma fuse_of_single_slices_witness :
  let left := [Q2Qc 0.2; Q2Qc 0.9] in
  let right := [Q2Qc 0.4; Q2Qc 0.7] in
  fuse [[left]] [[right]] = [spec.elementwise_mean left right].
Proof.
  intros left right.
  apply (@fuse_of_single_slices [left] [right]).
  repeat constructor.
Defined.

(** C6, as the claim states it, fails: two estimates of one shape with
    two slices along axis 1 are fused into a volume with a single voxel,
    a quarter of their sum, while their elementwise mean has two. *)
Lemma fuse_is_not_stack_mean :
  let left : tensor := [[[1]; [0]]] in
  let right : tensor := [[[0]; [0]]] in
  concat (fuse left right) <> spec.voxels (spec.stack_mean left right).
Proof.
  intros left right H. vm_compute in H. discriminate H.
Qed.

End Fusion.

(* ================================================================== *)
(** ** The disparity loss *)

Section DisparityLoss.

Import Py Float core_test.
Local Open Scope string_scope.

(** C5, on the code.  Whatever the values of the names of its scope, the
    expression of lines 111-112 raises [NameError]: neither the function,
    nor the module, nor the builtins bind [mse_loss]. *)
Theorem disparity_loss_raises_NameError (value_of : string -> pyval) :
  disparity_loss (frame_at_line_111 value_of) = Raise (NameError "mse_loss").
Proof. reflexivity. Qed.

(** With a loss function bound to [mse_loss] in the module, the
    expression still fails on its second name: the loop variable is
    [left_depth_image]. *)
Lemma disparity_loss_with_mse_loss (value_of : string -> pyval) :
  let fr := frame_at_line_111 value_of in
  disparity_loss
    {| f_locals := f_locals fr;
       f_globals := ("mse_loss", value_of "mse_loss") :: f_globals fr;
       f_builtins := f_builtins fr |}
  = Raise (NameError "left_depth_images").
Proof. reflexivity. Qed.

End DisparityLoss.

(* ================================================================== *)
(** ** The sample index *)

Section IndexBuilder.

Import Py data_loaders.

Variable cfg : SHAPENET.
Variable os_path_exists : string -> bool.

Lemma range_length (n : Z) : length (range n) = Z.to_nat n.
Proof. unfold range. now rewrite length_map, length_seq. Qed.

Lemma range_nth (n : Z) (i : nat) :
  (i < Z.to_nat n)%nat -> nth_error (range n) i = Some (Z.of_nat i).
Proof.
  intros H. unfold range. rewrite nth_error_map.
  rewrite nth_error_nth' with (d := 0%nat) by now rewrite length_seq.
  now rewrite seq_nth.
Qed.

Lemma rendering_images_loop t s (l : list Z) a b c d :
  fold_left
    (fun '(left_rgb, right_rgb, left_disp, right_disp) image_idx =>
       (left_rgb ++ [LEFT_RENDERING_PATH cfg t s image_idx],
        right_rgb ++ [RIGHT_RENDERING_PATH cfg t s image_idx],
        left_disp ++ [LEFT_DISP_PATH cfg t s image_idx],
        right_disp ++ [RIGHT_DISP_PATH cfg t s image_idx]))
    l (a, b, c, d) =
  (a ++ map (LEFT_RENDERING_PATH cfg t s) l,
   b ++ map (RIGHT_RENDERING_PATH cfg t s) l,
   c ++ map (LEFT_DISP_PATH cfg t s) l,
   d ++ map (RIGHT_DISP_PATH cfg t s) l).
Proof.
  revert a b c d. induction l as [|i l IH]; intros a b c d; simpl.
  - now rewrite !app_nil_r.
  - rewrite IH, <- !app_assoc. reflexivity.
Qed.

Lemma rendering_images_closed t s n :
  rendering_images cfg t s n =
  (map (LEFT_RENDERING_PATH cfg t s) (range n),
   map (RIGHT_RENDERING_PATH cfg t s) (range n),
   map (LEFT_DISP_PATH cfg t s) (range n),
   map (RIGHT_DISP_PATH cfg t s) (range n)).
Proof. unfold rendering_images. now rewrite rendering_images_loop. Qed.

Let present t (s : string) : bool := spec.volume_exists cfg os_path_exists t s.

Lemma get_files_loop t n samples files out :
  fold_left
    (fun '(files_of_taxonomy, out) sample_name =>
       let volume_file_path := VOLUME_PATH cfg t sample_name in
       if negb (os_path_exists volume_file_path)
       then (files_of_taxonomy, out ++ [WARN_ignore_sample t sample_name])
       else
         let '(left_rgb, right_rgb, left_disp, right_disp) :=
           rendering_images cfg t sample_name n in
         (files_of_taxonomy ++
            [ {| entry_taxonomy_name := t;
                 sample_name := sample_name;
                 left_rgb_images := left_rgb;
                 right_rgb_images := right_rgb;
                 left_disp_images := left_disp;
                 right_disp_images := right_disp;
                 volume := volume_file_path |} ],
          out))
    samples (files, out) =
  (files ++ map (spec.descriptor cfg n t) (filter (present t) samples),
   out ++ map (WARN_ignore_sample t) (filter (fun s => negb (present t s)) samples)).
Proof.
  revert files out. induction samples as [|s samples IH]; intros files out; simpl.
  - now rewrite !app_nil_r.
  - unfold present, spec.volume_exists in *.
    destruct (os_path_exists (VOLUME_PATH cfg t s)); simpl.
    + rewrite rendering_images_closed, IH, <- app_assoc. reflexivity.
    + rewrite IH, <- app_assoc. reflexivity.
Qed.

(** The index of a taxonomy lists the samples whose volume file exists,
    in their order, and one warning is printed for each other sample. *)
Lemma get_files_of_taxonomy_closed t samples n :
  get_files_of_taxonomy cfg os_path_exists t samples n =
  (map (spec.descriptor cfg n t) (filter (present t) samples),
   map (WARN_ignore_sample t) (filter (fun s => negb (present t s)) samples)).
Proof. unfold get_files_of_taxonomy. now rewrite get_files_loop. Qed.

Lemma get_dataset_loop dataset_type n taxonomies files out :
  fst (fold_left
         (fun '(files, out) taxonomy =>
            let '(files_of_taxonomy, printed) :=
              get_files_of_taxonomy cfg os_path_exists (taxonomy_id taxonomy)
                (match dataset_type with
                 | TRAIN => train taxonomy
                 | TEST => test taxonomy
                 | VAL => val taxonomy
                 end) n in
            (files ++ files_of_taxonomy,
             out ++ INFO_collecting (taxonomy_id taxonomy) (taxonomy_name taxonomy)
                 :: printed))
         taxonomies (files, out)) =
  files ++
  concat (map (fun tx =>
                 fst (get_files_of_taxonomy cfg os_path_exists (taxonomy_id tx)
                        (spec.split_of dataset_type tx) n))
              taxonomies).
Proof.
  revert files out. induction taxonomies as [|tx taxonomies IH]; intros files out; simpl.
  - now rewrite app_nil_r.
  - fold (spec.split_of dataset_type tx).
    destruct (get_files_of_taxonomy cfg os_path_exists (taxonomy_id tx)
                (spec.split_of dataset_type tx) n) as [fs printed].
    rewrite IH, <- app_assoc. reflexivity.
Qed.

Lemma get_dataset_files taxonomies dataset_type n :
  fst (get_dataset cfg os_path_exists taxonomies dataset_type n) =
  concat (map (fun tx =>
                 fst (get_files_of_taxonomy cfg os_path_exists (taxonomy_id tx)
                        (spec.split_of dataset_type tx) n))
              taxonomies).
Proof.
  unfold get_dataset.
  pose proof (get_dataset_loop dataset_type n taxonomies [] []) as H.
  simpl in H. rewrite <- H.
  now destruct (fold_left _ taxonomies ([], [])).
Qed.

End IndexBuilder.

Section IndexClaims.

Import Py data_loaders.
Local Open Scope string_scope.

(** C4.  For every taxonomy and every sample name of the selected split,
    the index of the taxonomy holds a descriptor of that sample exactly
    when its volume path exists on the storage backend, and a warning is
    printed for it exactly when the path does not exist; the index is the
    list of the descriptors of the samples with a volume, in the order of
    the split, so a missing volume does not stop the samples after it;
    a taxonomy none of whose samples has a volume yields the empty list,
    and the data set is the concatenation of the indexes of its
    taxonomies, whether empty or not. *)
Theorem index_holds_samples_with_volume
    (cfg : SHAPENET) (os_path_exists : string -> bool)
    (taxonomy_folder_name : string) (samples : list string) (total_views : Z) :
  let result :=
    get_files_of_taxonomy cfg os_path_exists taxonomy_folder_name samples total_views in
  let volume_path := VOLUME_PATH cfg taxonomy_folder_name in
  (forall s, In s samples ->
     ((exists e, In e (fst result)
                 /\ entry_taxonomy_name e = taxonomy_folder_name
                 /\ sample_name e = s)
      <-> os_path_exists (volume_path s) = true))
  /\ (forall s, In s samples ->
        (In (WARN_ignore_sample taxonomy_folder_name s) (snd result)
         <-> os_path_exists (volume_path s) = false))
  /\ fst result =
     map (spec.descriptor cfg total_views taxonomy_folder_name)
         (filter (fun s => os_path_exists (volume_path s)) samples)
  /\ ((forall s, In s samples -> os_path_exists (volume_path s) = false) ->
      fst result = [])
  /\ (forall dataset_taxonomy dataset_type,
        fst (get_dataset cfg os_path_exists dataset_taxonomy dataset_type total_views) =
        concat (map (fun tx =>
                       fst (get_files_of_taxonomy cfg os_path_exists (taxonomy_id tx)
                              (spec.split_of dataset_type tx) total_views))
                    dataset_taxonomy)).
Proof.
  intros result volume_path. subst result.
  rewrite get_files_of_taxonomy_closed. cbn [fst snd].
  unfold spec.volume_exists. fold volume_path.
  repeat split.
  - intros (e & He & _ & Hs). apply in_map_iff in He as (s' & <- & Hs').
    simpl in Hs. subst s'. now apply filter_In in Hs'.
  - intros Hex. exists (spec.descriptor cfg total_views taxonomy_folder_name s).
    repeat split. apply in_map, filter_In. now split.
  - intros Hin. apply in_map_iff in Hin as (s' & E & Hs').
    inversion E; subst s'. apply filter_In in Hs' as [_ Hs'].
    now apply negb_true_iff.
  - intros Hex. apply in_map, filter_In. split; [assumption|].
    now apply negb_true_iff.
  - intros Hall. replace (filter _ samples) with (@nil string); [reflexivity|].
    symmetry. induction samples as [|s l IH]; simpl; [reflexivity|].
    rewrite (Hall s) by now left. apply IH. intros s' Hs'. apply Hall. now right.
  - intros. apply get_dataset_files.
Qed.

(** C10.  Every descriptor that the index builder makes with a view
    count N >= 1 has four path lists of length N.  When the loader is
    asked for an entry of the file list that is such a descriptor, then,
    whatever the random source yields, the view index drawn at line 58 is
    below N, the four subscripts of lines 59-62 succeed, and the four
    files read are those of that one view of the sample: lines 49-67 do
    what reading the four paths of view [draw mod N] does, and
    [get_datum] goes on with the volume of the entry. *)
Theorem loader_selects_one_view
    (cfg : SHAPENET) (os_path_exists : string -> bool)
    (taxonomy_folder_name : string) (samples : list string) (total_views : Z)
    (e : file_entry)
    (ndarray : Type) (astype_float32 : ndarray -> ndarray) (fs : storage ndarray)
    (file_list : list file_entry) (idx draw : nat) :
  (1 <= total_views)%Z ->
  In e (fst (get_files_of_taxonomy cfg os_path_exists taxonomy_folder_name
               samples total_views)) ->
  nth_error file_list idx = Some e ->
  let N := Z.to_nat total_views in
  let view := Z.of_nat (draw mod N) in
  let read_view :=
    spec.read_view astype_float32 fs
      (LEFT_RENDERING_PATH cfg taxonomy_folder_name (sample_name e) view)
      (RIGHT_RENDERING_PATH cfg taxonomy_folder_name (sample_name e) view)
      (LEFT_DISP_PATH cfg taxonomy_folder_name (sample_name e) view)
      (RIGHT_DISP_PATH cfg taxonomy_folder_name (sample_name e) view) in
  length (left_rgb_images e) = N
  /\ length (right_rgb_images e) = N
  /\ length (left_disp_images e) = N
  /\ length (right_disp_images e) = N
  /\ (draw mod N < N)%nat
  /\ get_images astype_float32 fs file_list idx draw =
     bind read_view (fun images => Return (e, images))
  /\ get_datum astype_float32 fs file_list idx draw =
     bind read_view
       (fun '(left_rgb, right_rgb, left_disp, right_disp) =>
          bind (get_volume astype_float32 fs (volume e))
            (fun v =>
               Return {| d_taxonomy_name := entry_taxonomy_name e;
                         d_sample_name := sample_name e;
                         left_rgb_image := left_rgb;
                         right_rgb_image := right_rgb;
                         left_disp_image := left_disp;
                         right_disp_image := right_disp;
                         d_volume := v |})).
Proof.
  intros HN Hin Hidx N view read_view.
  rewrite get_files_of_taxonomy_closed in Hin. cbn [fst] in Hin.
  apply in_map_iff in Hin as (s & He & _).
  assert (HNpos : (N <> 0)%nat) by (unfold N; lia).
  assert (Hlt : (draw mod N < N)%nat) by now apply Nat.mod_upper_bound.
  assert (Hlen : length (left_rgb_images e) = N
                 /\ length (right_rgb_images e) = N
                 /\ length (left_disp_images e) = N
                 /\ length (right_disp_images e) = N).
  { subst e. cbn [spec.descriptor left_rgb_images right_rgb_images left_disp_images
                  right_disp_images].
    rewrite !length_map, range_length. fold N. repeat split. }
  destruct Hlen as (Hl & Hr & Hld & Hrd).
  assert (Himg : get_images astype_float32 fs file_list idx draw =
                 bind read_view (fun images => Return (e, images))).
  { unfold get_images, subscript at 1. rewrite Hidx. cbn [bind].
    unfold random_choice_range. rewrite Hl.
    apply Nat.eqb_neq in HNpos. rewrite HNpos. cbn [bind].
    unfold read_view, spec.read_view, view, subscript.
    subst e. cbn [spec.descriptor left_rgb_images right_rgb_images left_disp_images
                  right_disp_images sample_name].
    rewrite !nth_error_map, (range_nth _ Hlt). cbn [option_map bind].
    destruct (imread_astype _ (cv2_imread fs _)); cbn [bind]; try reflexivity.
    destruct (imread_astype _ (cv2_imread fs _)); cbn [bind]; try reflexivity.
    destruct (pyexr_get fs _ _); cbn [bind]; try reflexivity.
    destruct (pyexr_get fs _ _); cbn [bind]; reflexivity. }
  repeat (split; [assumption|]).
  unfold get_datum. rewrite Himg.
  destruct read_view as [[[[lr rr] ld] rd]| |]; reflexivity.
Qed.

End IndexClaims.

Section LoaderClaims.

Import Py data_loaders fixtures.
Local Open Scope string_scope.

Lemma loader_selects_one_view_witness :
  let e := spec.descriptor shapenet 2 "02691156" "a1" in
  get_images (fun a => a) storage_of_view_1 [e] 0 3 =
  Return (e, (1%nat, 2%nat, 3%nat, 4%nat))
  /\ get_datum (fun a => a) storage_of_view_1 [e] 0 3 =
     Return {| d_taxonomy_name := "02691156";
               d_sample_name := "a1";
               left_rgb_image := 1%nat;
               right_rgb_image := 2%nat;
               left_disp_image := 3%nat;
               right_disp_image := 4%nat;
               d_volume := 7%nat |}.
Proof.
  intros e.
  destruct (@loader_selects_one_view shapenet (fun _ => true) "02691156" ["a1"] 2 e
              nat (fun a => a) storage_of_view_1 [e] 0 3)
    as (_ & _ & _ & _ & _ & Himages & Hdatum).
  - lia.
  - left. reflexivity.
  - reflexivity.
  - split; [rewrite Himages | rewrite Hdatum]; reflexivity.
Defined.

(** What line 75 does once the guard of line 71 has passed: without the
    field "Volume" it raises [KeyError]. *)
Lemma get_datum_without_volume
    (ndarray : Type) (astype_float32 : ndarray -> ndarray) (fs : storage ndarray)
    (file_list : list file_entry) (idx draw : nat)
    (e : file_entry) (images : ndarray * ndarray * ndarray * ndarray)
    (payload : dict ndarray) :
  get_images astype_float32 fs file_list idx draw = Return (e, images) ->
  scipy_io_loadmat fs (volume e) = Return payload ->
  payload <> [] ->
  dict_get "Volume" payload = None ->
  get_datum astype_float32 fs file_list idx draw = Raise (KeyError "Volume").
Proof.
  intros Himg Hload Hne Hnone. unfold get_datum. rewrite Himg.
  destruct images as [[[lr rr] ld] rd]. cbn [bind]. unfold get_volume.
  rewrite Hload. cbn [bind].
  destruct payload as [|kv payload]; [congruence|]. now rewrite Hnone.
Qed.

(** C3 on a container that holds no volume.  [scipy.io.loadmat] returns
    the three header entries of such a file, so the dictionary is not
    empty: the guard of line 71 passes, the process is not exited with
    status 2, and line 75 raises [KeyError]. *)
Theorem container_without_volume_raises_KeyError :
  let payload := [("__header__", 0%nat); ("__version__", 0%nat); ("__globals__", 0%nat)] in
  let loaded := get_datum (fun a => a) (storage_with payload) one_sample 0 0 in
  scipy_io_loadmat (storage_with payload) "a1.mat" = Return payload
  /\ dict_get "Volume" payload = None
  /\ loaded = Raise (KeyError "Volume")
  /\ loaded <> Exit 2.
Proof.
  intros payload loaded.
  assert (Hloaded : loaded = Raise (KeyError "Volume")).
  { eapply (@get_datum_without_volume nat (fun a => a) (storage_with payload)
              one_sample 0 0);
      [reflexivity | reflexivity | discriminate | reflexivity]. }
  split; [reflexivity|]. split; [reflexivity|]. split; [exact Hloaded|].
  rewrite Hloaded. discriminate.
Qed.

End LoaderClaims.

(* ================================================================== *)
(** ** The code on small inputs *)

Section Examples.

Import Py Float core_test data_loaders fixtures.
Local Open Scope string_scope.

(** Four voxels, thresholds 0.3 and 0.5: intersection 2 and 1, union 3. *)
Example sample_iou_of_four_voxels :
  sample_iou [Q2Qc 0.3; Q2Qc 0.5]
             [Q2Qc 0.1; Q2Qc 0.4; Q2Qc 0.6; Q2Qc 0.9] [0; 1; 1; 0]%Qc
  = [Fin (Q2Qc (2 # 3)); Fin (Q2Qc (1 # 3))].
Proof. by_evaluation. Qed.

(** An empty union is not guarded: the quotient 0/0 is nan. *)
Example sample_iou_of_empty_union :
  sample_iou [Q2Qc 0.5] [Q2Qc 0.1; Q2Qc 0.4] [0; 0]%Qc = [NaN].
Proof. reflexivity. Qed.

(** Padding counts characters, not bytes: "caf" and an e with an acute
    accent (two bytes in UTF-8) are padded with four spaces. *)
Example ljust_counts_characters :
  let e_acute := String (Ascii.ascii_of_nat 195) (String (Ascii.ascii_of_nat 169) "") in
  test_report.str_len ("caf" ++ e_acute) = 4%nat
  /\ test_report.ljust 8 ("caf" ++ e_acute) = "caf" ++ e_acute ++ "    ".
Proof. split; reflexivity. Qed.

(** No sample recorded: line 160 divides the scalar 0.0 by 0. *)
Example testing_results_without_samples :
  testing_results exact [] 0 = Return ([], Arr0 NaN).
Proof. reflexivity. Qed.

(** One taxonomy with a sample whose volume is missing and one whose
    volume is present: one descriptor, one warning. *)
Example index_with_a_missing_volume :
  let cfg :=
    {| LEFT_RENDERING_PATH := fun t s _ => t ++ "/" ++ s ++ "/left.png";
       RIGHT_RENDERING_PATH := fun t s _ => t ++ "/" ++ s ++ "/right.png";
       LEFT_DISP_PATH := fun t s _ => t ++ "/" ++ s ++ "/left.exr";
       RIGHT_DISP_PATH := fun t s _ => t ++ "/" ++ s ++ "/right.exr";
       VOLUME_PATH := fun t s => t ++ "/" ++ s ++ ".mat" |} in
  let on_disk path := String.eqb path "02691156/b2.mat" in
  get_files_of_taxonomy cfg on_disk "02691156" ["a1"; "b2"] 1
  = ([ {| entry_taxonomy_name := "02691156"; sample_name := "b2";
          left_rgb_images := ["02691156/b2/left.png"];
          right_rgb_images := ["02691156/b2/right.png"];
          left_disp_images := ["02691156/b2/left.exr"];
          right_disp_images := ["02691156/b2/right.exr"];
          volume := "02691156/b2.mat" |} ],
     [ WARN_ignore_sample "02691156" "a1" ]).
Proof. reflexivity. Qed.

(** A descriptor without views: the draw of the view fails. *)
Example get_datum_without_views :
  get_datum (fun a => a) (storage_with [("Volume", 7%nat)])
    [ {| entry_taxonomy_name := "02691156"; sample_name := "a1";
         left_rgb_images := []; right_rgb_images := [];
         left_disp_images := []; right_disp_images := [];
         volume := "a1.mat" |} ] 0 0
  = Raise IndexError.
Proof. reflexivity. Qed.

End Examples.

(* ================================================================== *)
(** ** Empty unions and bounds of the report *)

Section ReportValues.

Import Py Float core_test.
Local Open Scope Qc_scope.

Lemma iou_at_nan_iff th gen gt :
  spec.binary_valued gt ->
  (iou_at th gen gt = NaN <-> union_at th gen gt = 0%nat).
Proof.
  intros Hb. rewrite iou_at_parts, intersection_at_spec by exact Hb.
  pose proof (intersection_le_union th gen gt) as Hle.
  rewrite <- union_at_spec in Hle.
  destruct (union_at th gen gt) as [|u] eqn:E.
  - replace (spec.intersection th gen gt) with 0%nat by lia.
    rewrite of_nat_0. split; reflexivity.
  - rewrite fdiv_count by lia. split; [discriminate | lia].
Qed.

Lemma sample_iou_nth thresholds gen gt j th :
  nth_error thresholds j = Some th ->
  nth j (sample_iou thresholds gen gt) NaN = iou_at th gen gt.
Proof.
  intros H. rewrite sample_iou_map. apply nth_error_nth.
  exact (map_nth_error (fun th => iou_at th gen gt) j thresholds H).
Qed.

Lemma nth_error_map_seq {X} (f : nat -> X) (k j : nat) :
  (j < k)%nat -> nth_error (map f (seq 0 k)) j = Some (f j).
Proof.
  intros H. apply map_nth_error. rewrite nth_error_seq.
  apply Nat.ltb_lt in H. now rewrite H.
Qed.

(** nan is absorbing in a sum taken from the left. *)
Lemma fold_fadd_nan (l : list fval) (a : fval) :
  a = NaN \/ In NaN l -> fold_left fadd l a = NaN.
Proof.
  revert a. induction l as [|x l IH]; intros a; cbn [fold_left].
  - intros [H | []]. exact H.
  - intros [-> | [-> | H]]; apply IH.
    + now left.
    + left. now destruct a.
    + now right.
Qed.

Lemma sum_from_nan (l : list fval) : In NaN l -> spec.sum_from exact l = NaN.
Proof.
  destruct l as [|x l]; [intros []|]. cbn [spec.sum_from f_add exact].
  intros [-> | H]; apply fold_fadd_nan; [now left | now right].
Qed.

Lemma mean_vector_nan k (rows : list (list fval)) j :
  (j < k)%nat ->
  (exists v, In v rows /\ nth j v NaN = NaN) ->
  nth_error (spec.mean_vector exact k rows) j = Some NaN.
Proof.
  intros Hj (v & Hv & Hnan). unfold spec.mean_vector.
  rewrite nth_error_map_seq by exact Hj. cbn [f_div f_nan exact].
  rewrite sum_from_nan; [reflexivity|].
  apply in_map_iff. now exists v.
Qed.

(** X3.  With a binary ground truth, the IoU of a sample at a threshold
    is nan exactly when its union is empty.  Such a sample has nan at
    the position of that threshold in its IoU vector; and when that
    vector is in a bucket of a dictionary on which lines 156-160 run,
    the entry of that threshold is nan in the mean vector of the
    taxonomy and in the overall vector. *)
Theorem empty_union_gives_nan
    (thresholds generated_volume ground_truth_volume : list Qc) (j : nat) (th : Qc) :
  nth_error thresholds j = Some th ->
  spec.binary_valued ground_truth_volume ->
  let k := length thresholds in
  let sample := sample_iou thresholds generated_volume ground_truth_volume in
  (iou_at th generated_volume ground_truth_volume = NaN
   <-> union_at th generated_volume ground_truth_volume = 0%nat)
  /\ (union_at th generated_volume ground_truth_volume = 0%nat ->
      nth_error sample j = Some NaN
      /\ forall (test_iou : dict (bucket fval)) (n_samples : nat)
                (t : string) (b : bucket fval),
           spec.well_formed k test_iou ->
           dict_get t test_iou = Some b ->
           In sample (iou b) ->
           exists rows mean_iou taxonomy_mean,
             testing_results exact test_iou n_samples = Return (rows, Arr1 mean_iou)
             /\ nth_error mean_iou j = Some NaN
             /\ dict_get t rows = Some (core_test.n_samples b, Arr1 taxonomy_mean)
             /\ nth_error taxonomy_mean j = Some NaN).
Proof.
  intros Hth Hb k sample. split; [now apply iou_at_nan_iff|].
  intros Hu. apply iou_at_nan_iff in Hu; [|exact Hb].
  assert (Hj : (j < k)%nat) by (apply nth_error_Some; congruence).
  assert (Hnan : nth j sample NaN = NaN)
    by (unfold sample;
        now rewrite (@sample_iou_nth thresholds generated_volume
                       ground_truth_volume j th Hth)).
  split.
  - transitivity (Some (nth j sample NaN)); [|now rewrite Hnan].
    apply nth_error_nth'. unfold sample. now rewrite sample_iou_length.
  - intros test_iou n_samples t b Hwf Hget Hin.
    assert (Hmean : nth_error (spec.mean_vector exact k (iou b)) j = Some NaN)
      by (apply mean_vector_nan; [exact Hj | now exists sample]).
    assert (Hne : test_iou <> []) by (intros ->; discriminate Hget).
    eexists; eexists; exists (spec.mean_vector exact k (iou b)).
    split; [exact (@testing_results_closed _ exact k test_iou n_samples Hne Hwf)|].
    split; [|split].
    + rewrite nth_error_map_seq by exact Hj. cbn [f_div f_mul f_nan f_of_int exact].
      rewrite sum_from_nan; [reflexivity|].
      apply in_map_iff. exists (t, b). split; [|now apply dict_get_In].
      cbn [snd]. now rewrite (nth_error_nth _ _ NaN Hmean).
    + unfold spec.report_rows.
      rewrite (dict_get_map
                 (fun b0 : bucket fval =>
                    (core_test.n_samples b0, Arr1 (spec.mean_vector exact k (iou b0))))
                 t test_iou).
      now rewrite Hget.
    + exact Hmean.
Qed.

Lemma empty_union_gives_nan_witness :
  let thresholds := [Q2Qc 0.3; Q2Qc 0.5] in
  let sample := sample_iou thresholds [Q2Qc 0.1; Q2Qc 0.4] [0; 0] in
  let test_iou :=
    record_iou
      (record_iou [] "02691156"%string
         (sample_iou thresholds [Q2Qc 0.1; Q2Qc 0.9] [0; 1]))
      "02691156"%string sample in
  nth_error sample 1 = Some NaN
  /\ exists rows mean_iou taxonomy_mean,
       testing_results exact test_iou 2 = Return (rows, Arr1 mean_iou)
       /\ nth_error mean_iou 1 = Some NaN
       /\ dict_get "02691156"%string rows = Some (2%nat, Arr1 taxonomy_mean)
       /\ nth_error taxonomy_mean 1 = Some NaN.
Proof.
  intros thresholds sample test_iou.
  destruct (proj2 (@empty_union_gives_nan thresholds [Q2Qc 0.1; Q2Qc 0.4] [0; 0]
                     1 (Q2Qc 0.5) eq_refl ltac:(binary_valued)) eq_refl)
    as [Hsample Hreport].
  split; [exact Hsample|].
  apply (Hreport test_iou 2%nat "02691156"%string
           {| n_samples := 2; iou := [sample_iou thresholds [Q2Qc 0.1; Q2Qc 0.9] [0; 1];
                                      sample] |}).
  - repeat constructor; discriminate.
  - reflexivity.
  - right. now left.
Defined.

End ReportValues.

Section ReportBounds.

Import Py Float core_test.
Local Open Scope Qc_scope.












End ReportBounds.

(* ================================================================== *)
(** ** A perfect score *)

Section PerfectScore.

Import Float core_test.
Local Open Scope Qc_scope.

Lemma Qc_1_neq_0 : (1 : Qc) <> 0.
Proof. now apply Qceqb_neq. Qed.

Lemma of_nat_inj (n m : nat) : of_nat n = of_nat m -> n = m.
Proof.
  intros E. apply (f_equal this) in E. unfold of_nat, Q2Qc in E. cbn [this] in E.
  assert (H : inject_Z (Z.of_nat n) == inject_Z (Z.of_nat m)).
  { rewrite <- (Qred_correct (inject_Z (Z.of_nat n))), E. apply Qred_correct. }
  unfold Qeq in H. simpl in H. lia.
Qed.

(** The two counts agree exactly when the binarised volume is the ground
    truth. *)
Lemma counts_agree_iff th gen gt :
  length gen = length gt ->
  spec.binary_valued gt ->
  (spec.intersection th gen gt = spec.union th gen gt <-> ge_float gen th = gt).
Proof.
  revert gt. induction gen as [|x gen IH]; intros [|g gt] Hlen Hb;
    try discriminate Hlen.
  - split; reflexivity.
  - pose proof (Forall_inv Hb) as Hg. pose proof (Forall_inv_tail Hb) as Hgt.
    injection Hlen as Hlen. specialize (IH gt Hlen Hgt).
    pose proof (intersection_le_union th gen gt) as Hle.
    unfold spec.intersection, spec.union, spec.count_true, spec.binarize,
      spec.occupied, ge_float in *.
    cbn [map zip_with].
    assert (E11 : Qcleb 1 (1 + 1) = true) by now apply Qcleb_le.
    assert (E10 : Qcleb 1 (1 + 0) = true) by now apply Qcleb_le.
    assert (E01 : Qcleb 1 (0 + 1) = true) by now apply Qcleb_le.
    assert (E00 : Qcleb 1 (0 + 0) = false) by reflexivity.
    assert (Q1 : Qceqb 1 1 = true) by now apply Qceqb_eq.
    assert (Q0 : Qceqb 0 1 = false) by now apply Qceqb_neq.
    destruct Hg as [-> | ->]; destruct (Qcleb th x);
      rewrite ?E11, ?E10, ?E01, ?E00, ?Q1, ?Q0; cbn [andb filter length].
    + split; [lia|]. intros E. apply (f_equal (hd 0)) in E.
      now apply Qc_1_neq_0 in E.
    + rewrite IH. split; [now intros -> | intros E; now apply (f_equal (@tl Qc)) in E].
    + rewrite Nat.succ_inj_wd, IH.
      split; [now intros -> | intros E; now apply (f_equal (@tl Qc)) in E].
    + split; [lia|]. intros E. apply (f_equal (hd 0)) in E. symmetry in E.
      now apply Qc_1_neq_0 in E.
Qed.

(** X5.  For a fused volume and a binary ground truth of the same shape
    whose union at the threshold is not empty, the IoU is 1 exactly when
    the volume binarised at the threshold is the ground truth. *)
Theorem iou_is_one_iff_exact
    (th : Qc) (generated_volume ground_truth_volume : list Qc) :
  length generated_volume = length ground_truth_volume ->
  spec.binary_valued ground_truth_volume ->
  (0 < union_at th generated_volume ground_truth_volume)%nat ->
  (iou_at th generated_volume ground_truth_volume = Fin 1
   <-> ge_float generated_volume th = ground_truth_volume).
Proof.
  intros Hlen Hb Hu.
  rewrite <- (@counts_agree_iff th generated_volume ground_truth_volume Hlen Hb).
  rewrite iou_at_parts, intersection_at_spec by exact Hb.
  rewrite fdiv_count by exact Hu. rewrite union_at_spec in *.
  pose proof (of_nat_neq_0 Hu) as Hne.
  split.
  - intros E. assert (E' : of_nat (spec.intersection th generated_volume
                                      ground_truth_volume)
                             / of_nat (spec.union th generated_volume
                                         ground_truth_volume) = 1)
      by congruence.
    apply of_nat_inj.
    replace (of_nat (spec.intersection th generated_volume ground_truth_volume))
      with (of_nat (spec.intersection th generated_volume ground_truth_volume)
            / of_nat (spec.union th generated_volume ground_truth_volume)
            * of_nat (spec.union th generated_volume ground_truth_volume))
      by (field; exact Hne).
    rewrite E'. ring.
  - intros ->. f_equal. field. exact Hne.
Qed.

Lemma iou_is_one_iff_exact_witness :
  let fused := [Q2Qc 0.1; Q2Qc 0.4; Q2Qc 0.6; Q2Qc 0.9] in
  iou_at (Q2Qc 0.5) fused [0; 0; 1; 1] = Fin 1.
Proof.
  intros fused.
  apply (@iou_is_one_iff_exact (Q2Qc 0.5) fused [0; 0; 1; 1]).
  - reflexivity.
  - binary_valued.
  - vm_compute. lia.
  - by_evaluation.
Defined.

End PerfectScore.

(* ================================================================== *)
(** ** The taxonomy dictionary and the printed report *)

Section TaxonomyDict.

Import Py data_loaders test_report.

Lemma dict_get_set {V} (k k' : string) (v : V) (d : dict V) :
  dict_get k (dict_set k' v d) = if String.eqb k k' then Some v else dict_get k d.
Proof.
  induction d as [|[k0 v0] d IH]; simpl; [reflexivity|].
  destruct (String.eqb k' k0) eqn:E; simpl.
  - apply String.eqb_eq in E. subst k0. now destruct (String.eqb k k').
  - rewrite IH. destruct (String.eqb k k0) eqn:E0; [|reflexivity].
    apply String.eqb_eq in E0. subst k0.
    rewrite String.eqb_sym in E. now rewrite E.
Qed.

Lemma taxonomy_dict_snoc (l : list taxonomy) (t : taxonomy) :
  taxonomy_dict (l ++ [t]) = dict_set (taxonomy_id t) t (taxonomy_dict l).
Proof. unfold taxonomy_dict. now rewrite fold_left_app. Qed.

Lemma taxonomy_dict_get (taxonomy_file : list taxonomy) (id : string) :
  dict_get id (taxonomy_dict taxonomy_file) = props.last_with_id taxonomy_file id.
Proof.
  unfold props.last_with_id.
  induction taxonomy_file as [|t l IH] using rev_ind; [reflexivity|].
  rewrite taxonomy_dict_snoc, dict_get_set, rev_app_distr. simpl.
  rewrite (String.eqb_sym (taxonomy_id t) id).
  now destruct (String.eqb id (taxonomy_id t)).
Qed.

Lemma last_with_id_some (taxonomy_file : list taxonomy) (id : string) :
  In id (map taxonomy_id taxonomy_file) ->
  exists t, props.last_with_id taxonomy_file id = Some t
            /\ In t taxonomy_file /\ taxonomy_id t = id.
Proof.
  intros Hin. unfold props.last_with_id.
  destruct (find _ (rev taxonomy_file)) as [t|] eqn:E.
  - apply find_some in E as [Ht Hid]. apply in_rev in Ht.
    apply String.eqb_eq in Hid. now exists t.
  - apply in_map_iff in Hin as (t & Hid & Ht).
    apply in_rev in Ht. apply (find_none _ _ E t) in Ht.
    subst id. now rewrite String.eqb_refl in Ht.
Qed.

Lemma last_with_id_none (taxonomy_file : list taxonomy) (id : string) :
  ~ In id (map taxonomy_id taxonomy_file) ->
  props.last_with_id taxonomy_file id = None.
Proof.
  intros Hnin. unfold props.last_with_id.
  destruct (find _ (rev taxonomy_file)) as [t|] eqn:E; [|reflexivity].
  apply find_some in E as [Ht Hid]. apply in_rev in Ht.
  apply String.eqb_eq in Hid. exfalso. apply Hnin. subst id. now apply in_map.
Qed.

(** X6.  The taxonomy dictionary of line 35 maps an id to the last
    taxonomy of the file that carries it, and holds no entry for an id
    that the file does not have. *)
Theorem taxonomy_dict_keeps_last
    (taxonomy_file : list taxonomy) (id : string) :
  dict_get id (taxonomy_dict taxonomy_file)
  = find (fun t => String.eqb (taxonomy_id t) id) (rev taxonomy_file)
  /\ (dict_get id (taxonomy_dict taxonomy_file) = None
      <-> ~ In id (map taxonomy_id taxonomy_file)).
Proof.
  split; [apply taxonomy_dict_get|].
  rewrite taxonomy_dict_get. split.
  - intros E Hin. apply last_with_id_some in Hin as (t & Ht & _). congruence.
  - apply last_with_id_none.
Qed.

End TaxonomyDict.

Section Maximum.

Import Py Float core_test test_report.
Local Open Scope Qc_scope.

Lemma fle_refl (x : fval) : x <> NaN -> props.fle x x.
Proof. destruct x; simpl; try tauto. intros _. apply Qcle_refl. Qed.

Lemma fle_trans (x y z : fval) : props.fle x y -> props.fle y z -> props.fle x z.
Proof.
  destruct x, y, z; simpl; try tauto. apply Qcle_trans.
Qed.

Lemma fmaximum_upper (a b : fval) :
  a <> NaN -> b <> NaN ->
  (fmaximum a b = a \/ fmaximum a b = b)
  /\ props.fle a (fmaximum a b) /\ props.fle b (fmaximum a b).
Proof.
  destruct a as [x| | |], b as [y| | |]; simpl; try tauto; intros _ _;
    try (repeat split; auto using Qcle_refl; fail).
  destruct (Qcleb x y) eqn:E; simpl.
  - apply Qcleb_le in E. repeat split; auto using Qcle_refl.
  - assert (H : y <= x).
    { apply Qclt_le_weak, Qcnot_le_lt. intros H. apply Qcleb_le in H. congruence. }
    repeat split; auto using Qcle_refl.
Qed.

Lemma fold_fmaximum_nan (v : list fval) (x : fval) :
  In NaN (x :: v) -> fold_left fmaximum v x = NaN.
Proof.
  revert x. induction v as [|y v IH]; intros x; cbn [fold_left].
  - now intros [-> | []].
  - intros [-> | [-> | H]]; apply IH.
    + now left.
    + left. now destruct x.
    + now right.
Qed.

Lemma fold_fmaximum_max (v : list fval) (x : fval) :
  ~ In NaN (x :: v) ->
  In (fold_left fmaximum v x) (x :: v)
  /\ Forall (fun y => props.fle y (fold_left fmaximum v x)) (x :: v).
Proof.
  revert x. induction v as [|y v IH]; intros x Hn; cbn [fold_left].
  - split; [now left|]. constructor; [|constructor].
    apply fle_refl. intros ->. apply Hn. now left.
  - assert (Hx : x <> NaN) by (intros ->; apply Hn; now left).
    assert (Hy : y <> NaN) by (intros ->; apply Hn; right; now left).
    destruct (fmaximum_upper Hx Hy) as (Hcase & Hax & Hay).
    destruct (IH (fmaximum x y)) as [Hin Hall].
    { intros [E | H]; [|apply Hn; right; now right].
      destruct Hcase as [E' | E']; rewrite E' in E; congruence. }
    split.
    + destruct Hin as [E | H]; [|right; now right].
      rewrite <- E. destruct Hcase as [-> | ->]; [now left | right; now left].
    + pose proof (Forall_inv Hall) as Hm. pose proof (Forall_inv_tail Hall) as Hv.
      constructor; [now apply fle_trans with (fmaximum x y)|].
      constructor; [now apply fle_trans with (fmaximum x y) | exact Hv].
Qed.

Lemma np_max_spec (v : list fval) :
  v <> [] ->
  exists m,
    np_max (Arr1 v) = Return m
    /\ (In NaN v -> m = NaN)
    /\ (~ In NaN v -> In m v /\ Forall (fun y => props.fle y m) v).
Proof.
  destruct v as [|x v]; [congruence|]. intros _.
  exists (fold_left fmaximum v x). split; [reflexivity|]. split.
  - apply fold_fmaximum_nan.
  - apply fold_fmaximum_max.
Qed.

End Maximum.

Section PrintedReport.

Import Py Float core_test test_report.
Local Open Scope string_scope.
Local Open Scope list_scope.

Variable format_thresh : Qc -> string.
Variable format_d : nat -> string.
Variable format_iou : fval -> string.

Lemma print_body_closed {X} taxonomies (name : string -> string)
    (key : X -> string) (n : X -> nat) (m : X -> list fval)
    (l : list X) (out : list print_call) :
  (forall x, In x l ->
     exists t, dict_get (key x) taxonomies = Some t
               /\ data_loaders.taxonomy_name t = name (key x)) ->
  print_body format_d format_iou taxonomies
             (map (fun x => (key x, (n x, Arr1 (m x)))) l) out
  = Return (out ++ concat (map (fun x =>
                                  props.table_line
                                    (ljust 8 (name (key x)) :: format_d (n x)
                                     :: map format_iou (m x)))
                               l)).
Proof.
  revert out. induction l as [|x l IH]; intros out Hk; simpl.
  - now rewrite app_nil_r.
  - destruct (Hk x (or_introl eq_refl)) as (t & -> & <-).
    rewrite IH by (intros x' Hx'; apply Hk; now right).
    unfold props.table_line. simpl. now rewrite <- !app_assoc, map_map.
Qed.

Lemma print_body_unknown {X} taxonomies
    (key : X -> string) (n : X -> nat) (m : X -> list fval)
    (l : list X) (out : list print_call) :
  (exists x, In x l /\ dict_get (key x) taxonomies = None) ->
  exists id,
    print_body format_d format_iou taxonomies
               (map (fun x => (key x, (n x, Arr1 (m x)))) l) out
    = Raise (KeyError id)
    /\ In id (map key l) /\ dict_get id taxonomies = None.
Proof.
  revert out. induction l as [|x l IH]; intros out (x0 & Hin & Hx0).
  - destruct Hin.
  - simpl. destruct (dict_get (key x) taxonomies) as [t|] eqn:E.
    + destruct Hin as [-> | Hin]; [congruence|].
      destruct (IH (((out ++
                        [ {| text := ljust 8 (data_loaders.taxonomy_name t);
                             end_ := tab |};
                          {| text := format_d (n x); end_ := tab |} ]) ++
                       map (fun ti => {| text := format_iou ti; end_ := tab |}) (m x)) ++
                      [ {| text := ""; end_ := newline |} ]))
        as (id & E1 & Hin1 & Hid); [now exists x0|].
      exists id. simpl. rewrite E1. split; [reflexivity|]. split; [now right | exact Hid].
    + exists (key x). split; [reflexivity|]. split; [now left | exact E].
Qed.

End PrintedReport.

Section ReportOutcome.

Import Py Float core_test test_report.
Local Open Scope string_scope.
Local Open Scope list_scope.

Variable format_thresh : Qc -> string.
Variable format_d : nat -> string.
Variable format_iou : fval -> string.

Lemma known_taxonomies taxonomy_file (id : string) :
  In id (map data_loaders.taxonomy_id taxonomy_file) ->
  exists t, dict_get id (taxonomy_dict taxonomy_file) = Some t
            /\ data_loaders.taxonomy_name t = props.name_of taxonomy_file id.
Proof.
  intros Hknown.
  destruct (last_with_id_some _ _ Hknown) as (t & E & _).
  exists t. rewrite taxonomy_dict_get. unfold props.name_of. now rewrite E.
Qed.

(** X7.  Lines 156-189 are run on a dictionary that holds at least one
    bucket, every bucket with at least one IoU vector and all vectors
    with the same number k >= 1 of entries, and whose taxonomies are all
    in the taxonomy file.  They print the banner, the header with the
    thresholds, one line per bucket in the order of the dictionary (name
    padded to 8 characters, sample count, mean IoU per entry) and the
    overall line; they return the greatest entry of the overall vector,
    or nan when an entry is nan. *)
Theorem report_of_a_pass
    (thresholds : list Qc) (taxonomy_file : list data_loaders.taxonomy)
    (k : nat) (test_iou : dict (bucket fval)) (n_samples : nat) :
  test_iou <> [] ->
  (1 <= k)%nat ->
  spec.well_formed k test_iou ->
  (forall id, In id (map fst test_iou) ->
     In id (map data_loaders.taxonomy_id taxonomy_file)) ->
  exists mean_iou max_iou,
    testing_results exact test_iou n_samples =
    Return (spec.report_rows exact k test_iou, Arr1 mean_iou)
    /\ output_testing_results format_thresh format_d format_iou
         thresholds (taxonomy_dict taxonomy_file) test_iou n_samples
       = Return
           ({| text := "============================ TEST RESULTS ============================";
               end_ := newline |}
            :: props.table_line ("Taxonomy" :: "#Sample" :: map format_thresh thresholds)
            ++ concat (map (fun entry =>
                              props.table_line
                                (ljust 8 (props.name_of taxonomy_file (fst entry))
                                 :: format_d (core_test.n_samples (snd entry))
                                 :: map format_iou
                                        (spec.mean_vector exact k (iou (snd entry)))))
                           test_iou)
            ++ {| text := "Overall "; end_ := (tab ++ tab)%string |}
               :: map (fun mi => {| text := format_iou mi; end_ := tab |}) mean_iou
            ++ [ {| text := newline; end_ := newline |} ],
            max_iou)
    /\ (In NaN mean_iou -> max_iou = NaN)
    /\ (~ In NaN mean_iou ->
        In max_iou mean_iou /\ Forall (fun x => props.fle x max_iou) mean_iou).
Proof.
  intros Hne Hk Hwf Hknown.
  pose proof (@testing_results_closed _ exact k test_iou n_samples Hne Hwf) as Hres.
  match type of Hres with
  | _ = Return (_, Arr1 ?v) => set (mean_iou := v) in *
  end.
  assert (Hv : mean_iou <> []).
  { unfold mean_iou. destruct k; [lia | discriminate]. }
  destruct (np_max_spec Hv) as (m & Hmax & Hnan & Hfin).
  exists mean_iou, m. split; [exact Hres|]. split; [|split; assumption].
  unfold output_testing_results. rewrite Hres.
  cbn [bind fst snd]. unfold test_results, spec.report_rows.
  rewrite (@print_body_closed format_d format_iou (string * bucket fval)
             (taxonomy_dict taxonomy_file) (props.name_of taxonomy_file)
             (fun entry => fst entry)
             (fun entry => core_test.n_samples (snd entry))
             (fun entry => spec.mean_vector exact k (iou (snd entry)))).
  - cbn [bind iterate]. rewrite Hmax. cbn [bind].
    unfold props.table_line. cbn [map app].
    now rewrite <- !app_assoc, (map_map format_thresh).
  - intros entry Hin. apply known_taxonomies, Hknown. now apply in_map.
Qed.

(** X8.  When no sample has been recorded, the dictionary is empty and
    [n_samples] is 0: line 160 then makes the scalar nan, not a vector,
    and the loop of line 178 over it raises [TypeError], whatever the
    thresholds and the taxonomy file; the same holds of an empty
    dictionary with any [n_samples]. *)
Theorem report_of_an_empty_pass
    (thresholds : list Qc) (taxonomy_file : list data_loaders.taxonomy)
    (n_samples : nat) :
  testing_results exact [] 0 = Return ([], Arr0 NaN)
  /\ output_testing_results format_thresh format_d format_iou
       thresholds (taxonomy_dict taxonomy_file) [] n_samples
     = Raise TypeError.
Proof. split; reflexivity. Qed.

(** X20.  Lines 156-189 on a dictionary of well-formed buckets do not
    return a value when a taxonomy of the dictionary is not in the
    taxonomy file ([KeyError] with such an id, at line 171), nor, with
    all taxonomies known and at least one bucket, when the IoU vectors
    have no entry ([ValueError] from the maximum of an empty vector, at
    line 183). *)
Theorem report_failures_on_buckets
    (thresholds : list Qc) (taxonomy_file : list data_loaders.taxonomy)
    (k : nat) (test_iou : dict (bucket fval)) (n_samples : nat) :
  test_iou <> [] ->
  spec.well_formed k test_iou ->
  let result :=
    output_testing_results format_thresh format_d format_iou
      thresholds (taxonomy_dict taxonomy_file) test_iou n_samples in
  let known id := In id (map data_loaders.taxonomy_id taxonomy_file) in
  ((exists id, In id (map fst test_iou) /\ ~ known id) ->
   exists id, result = Raise (KeyError id)
              /\ In id (map fst test_iou) /\ ~ known id)
  /\ ((forall id, In id (map fst test_iou) -> known id) -> k = 0%nat ->
      result = Raise ValueError).
Proof.
  intros Hne Hwf result known. subst result.
  unfold output_testing_results.
  rewrite (@testing_results_closed _ exact k test_iou n_samples Hne Hwf).
  cbn [bind fst snd]. unfold test_results, spec.report_rows. split.
  - intros (id0 & Hin0 & Hunknown).
    match goal with
    | |- context [print_body _ _ ?d _ ?out] =>
        destruct (@print_body_unknown format_d format_iou (string * bucket fval) d
                    (fun entry => fst entry)
                    (fun entry => core_test.n_samples (snd entry))
                    (fun entry => spec.mean_vector exact k (iou (snd entry)))
                    test_iou out)
          as (id & E & Hin & Hnone)
    end.
    + apply in_map_iff in Hin0 as (entry & <- & Hentry).
      exists entry. split; [exact Hentry|].
      rewrite taxonomy_dict_get. now apply last_with_id_none.
    + exists id. rewrite E. cbn [bind]. split; [reflexivity|]. split; [exact Hin|].
      intros Hid. rewrite taxonomy_dict_get in Hnone.
      apply last_with_id_some in Hid as (t & Ht & _). congruence.
  - intros Hknown ->.
    rewrite (@print_body_closed format_d format_iou (string * bucket fval)
               (taxonomy_dict taxonomy_file) (props.name_of taxonomy_file)
               (fun entry => fst entry)
               (fun entry => core_test.n_samples (snd entry))
               (fun entry => spec.mean_vector exact 0 (iou (snd entry)))).
    + reflexivity.
    + intros entry Hin. apply known_taxonomies, Hknown. now apply in_map.
Qed.

End ReportOutcome.

Section ReportWitness.

Import Py Float core_test test_report.
Local Open Scope string_scope.
Local Open Scope list_scope.

Lemma report_of_a_pass_witness :
  let test_iou :=
    record_iou
      (record_iou [] "02691156" [Fin (Q2Qc 0.5); Fin 1])
      "02691156" [Fin 1; Fin (Q2Qc 0.25)] in
  let taxonomy_file :=
    [ {| data_loaders.taxonomy_id := "02691156";
         data_loaders.taxonomy_name := "aeroplane";
         data_loaders.train := []; data_loaders.test := ["a1"; "a2"];
         data_loaders.val := [] |} ] in
  exists out mean_iou max_iou,
    testing_results exact test_iou 2 =
    Return (spec.report_rows exact 2 test_iou, Arr1 mean_iou)
    /\ output_testing_results (fun _ => "t=") (fun _ => "n") (fun _ => "x")
         [Q2Qc 0.3; Q2Qc 0.5] (taxonomy_dict taxonomy_file) test_iou 2
       = Return (out, max_iou)
    /\ In max_iou mean_iou.
Proof.
  intros test_iou taxonomy_file.
  destruct (@report_of_a_pass (fun _ => "t=") (fun _ => "n") (fun _ => "x")
              [Q2Qc 0.3; Q2Qc 0.5] taxonomy_file 2 test_iou 2)
    as (mean_iou & m & Hres & E & _ & Hfin).
  - discriminate.
  - lia.
  - repeat constructor; discriminate.
  - intros id [<- | []]. left. reflexivity.
  - eexists; exists mean_iou, m. split; [exact Hres|]. split; [exact E|].
    apply Hfin. intros Hin.
    assert (Hvalue : Arr1 mean_iou
                     = Arr1 [Fin (Q2Qc 0.75); Fin (Q2Qc (5 # 8))]).
    { assert (Hev : testing_results exact test_iou 2 =
                    Return (spec.report_rows exact 2 test_iou,
                            Arr1 [Fin (Q2Qc 0.75); Fin (Q2Qc (5 # 8))]))
        by by_evaluation.
      rewrite Hev in Hres. now inversion Hres. }
    inversion Hvalue as [Hm]. rewrite Hm in Hin.
    destruct Hin as [H | [H | []]]; discriminate H.
Defined.

Lemma report_failures_on_buckets_witness :
  let test_iou := record_iou [] "02691156" [Fin (Q2Qc 0.5); Fin 1] in
  exists id,
    output_testing_results (fun _ => "t=") (fun _ => "n") (fun _ => "x")
      [Q2Qc 0.3; Q2Qc 0.5] (taxonomy_dict []) test_iou 1
    = Raise (KeyError id)
    /\ In id (map fst test_iou)
    /\ ~ In id (map data_loaders.taxonomy_id []).
Proof.
  intros test_iou.
  apply (proj1 (@report_failures_on_buckets (fun _ => "t=") (fun _ => "n") (fun _ => "x")
                  [Q2Qc 0.3; Q2Qc 0.5] [] 2 test_iou 1
                  ltac:(discriminate) ltac:(repeat constructor; discriminate))).
  exists "02691156". split; [now left | intros []].
Defined.

End ReportWitness.

(* ================================================================== *)
(** ** The whole index *)

Section WholeIndex.

Import Py data_loaders.

Variable cfg : SHAPENET.
Variable os_path_exists : string -> bool.

Lemma filter_partition_length {A} (f : A -> bool) (l : list A) :
  (length (filter f l) + length (filter (fun x => negb (f x)) l) = length l)%nat.
Proof.
  induction l as [|x l IH]; simpl; [reflexivity|].
  destruct (f x); simpl; lia.
Qed.

Lemma get_dataset_loop_out dataset_type n taxonomies files out :
  snd (fold_left
         (fun '(files, out) taxonomy =>
            let '(files_of_taxonomy, printed) :=
              get_files_of_taxonomy cfg os_path_exists (taxonomy_id taxonomy)
                (match dataset_type with
                 | TRAIN => train taxonomy
                 | TEST => test taxonomy
                 | VAL => val taxonomy
                 end) n in
            (files ++ files_of_taxonomy,
             out ++ INFO_collecting (taxonomy_id taxonomy) (taxonomy_name taxonomy)
                 :: printed))
         taxonomies (files, out)) =
  out ++
  concat (map (fun tx =>
                 INFO_collecting (taxonomy_id tx) (taxonomy_name tx)
                 :: snd (get_files_of_taxonomy cfg os_path_exists (taxonomy_id tx)
                           (spec.split_of dataset_type tx) n))
              taxonomies).
Proof.
  revert files out. induction taxonomies as [|tx taxonomies IH]; intros files out; simpl.
  - now rewrite app_nil_r.
  - fold (spec.split_of dataset_type tx).
    destruct (get_files_of_taxonomy cfg os_path_exists (taxonomy_id tx)
                (spec.split_of dataset_type tx) n) as [fs printed].
    rewrite IH, <- app_assoc. reflexivity.
Qed.

Lemma get_dataset_out taxonomies dataset_type n :
  snd (get_dataset cfg os_path_exists taxonomies dataset_type n) =
  concat (map (fun tx =>
                 INFO_collecting (taxonomy_id tx) (taxonomy_name tx)
                 :: snd (get_files_of_taxonomy cfg os_path_exists (taxonomy_id tx)
                           (spec.split_of dataset_type tx) n))
              taxonomies)
  ++ [INFO_complete
        (length (fst (get_dataset cfg os_path_exists taxonomies dataset_type n)))].
Proof.
  unfold get_dataset.
  pose proof (get_dataset_loop_out dataset_type n taxonomies [] []) as H.
  simpl in H. rewrite <- H.
  now destruct (fold_left _ taxonomies ([], [])).
Qed.

Lemma warnings_of_taxonomy tx dataset_type n :
  length (filter props.is_warning
            (INFO_collecting (taxonomy_id tx) (taxonomy_name tx)
             :: snd (get_files_of_taxonomy cfg os_path_exists (taxonomy_id tx)
                       (spec.split_of dataset_type tx) n)))
  = length (snd (get_files_of_taxonomy cfg os_path_exists (taxonomy_id tx)
                   (spec.split_of dataset_type tx) n)).
Proof.
  rewrite get_files_of_taxonomy_closed. cbn [snd filter props.is_warning].
  generalize (filter (fun s => negb (spec.volume_exists cfg os_path_exists
                                       (taxonomy_id tx) s))
                     (spec.split_of dataset_type tx)).
  intros l. induction l as [|s l IH]; simpl; [reflexivity|]. now rewrite IH.
Qed.

Lemma index_membership taxonomies dataset_type n (e : file_entry) :
  In e (fst (get_dataset cfg os_path_exists taxonomies dataset_type n))
  <-> exists tx s,
        In tx taxonomies
        /\ In s (spec.split_of dataset_type tx)
        /\ os_path_exists (VOLUME_PATH cfg (taxonomy_id tx) s) = true
        /\ e = spec.descriptor cfg n (taxonomy_id tx) s.
Proof.
  rewrite get_dataset_files, in_concat. split.
  - intros (l & Hl & He). apply in_map_iff in Hl as (tx & <- & Htx).
    rewrite get_files_of_taxonomy_closed in He. cbn [fst] in He.
    apply in_map_iff in He as (s & <- & Hs). apply filter_In in Hs as [Hs Hv].
    now exists tx, s.
  - intros (tx & s & Htx & Hs & Hv & ->).
    exists (fst (get_files_of_taxonomy cfg os_path_exists (taxonomy_id tx)
                   (spec.split_of dataset_type tx) n)).
    split.
    + apply in_map_iff. now exists tx.
    + rewrite get_files_of_taxonomy_closed. cbn [fst].
      apply in_map, filter_In. now split.
Qed.

End WholeIndex.

Section WholeIndexFacts.

Import Py data_loaders.

(** X9.  The data set counts every sample name of the selected split
    once: its length plus the number of warnings printed is the number of
    sample names over all the taxonomies, and the last line printed
    reports its length. *)
Theorem dataset_accounts_for_every_sample
    (cfg : SHAPENET) (os_path_exists : string -> bool)
    (dataset_taxonomy : list taxonomy) (dataset_type : DatasetType) (total_views : Z) :
  let result := get_dataset cfg os_path_exists dataset_taxonomy dataset_type total_views in
  (dataset.len (fst result) + length (filter props.is_warning (snd result))
   = list_sum (map (fun tx => length (spec.split_of dataset_type tx)) dataset_taxonomy))%nat
  /\ last (snd result) (INFO_complete 0) = INFO_complete (dataset.len (fst result)).
Proof.
  intros result. subst result. split.
  - rewrite get_dataset_out, filter_app, length_app. cbn [filter props.is_warning length].
    rewrite Nat.add_0_r, get_dataset_files. unfold dataset.len.
    induction dataset_taxonomy as [|tx l IH]; [reflexivity|].
    cbn [map concat list_sum]. rewrite filter_app, !length_app.
    rewrite warnings_of_taxonomy.
    pose proof (filter_partition_length
                  (fun s => spec.volume_exists cfg os_path_exists (taxonomy_id tx) s)
                  (spec.split_of dataset_type tx)) as Hp.
    cbv beta in Hp.
    rewrite get_files_of_taxonomy_closed. cbn [fst snd].
    rewrite !length_map. unfold list_sum in *. cbn [fold_right]. lia.
  - rewrite get_dataset_out. apply last_last.
Qed.

(** X10.  An entry is in the data set exactly when it is the descriptor of
    a sample name of the selected split of a taxonomy of the file whose
    volume path exists; so the volume path of every entry exists. *)
Theorem dataset_entries
    (cfg : SHAPENET) (os_path_exists : string -> bool)
    (dataset_taxonomy : list taxonomy) (dataset_type : DatasetType) (total_views : Z)
    (e : file_entry) :
  let files :=
    fst (get_dataset cfg os_path_exists dataset_taxonomy dataset_type total_views) in
  (In e files
   <-> exists tx s,
         In tx dataset_taxonomy
         /\ In s (spec.split_of dataset_type tx)
         /\ os_path_exists (VOLUME_PATH cfg (taxonomy_id tx) s) = true
         /\ e = spec.descriptor cfg total_views (taxonomy_id tx) s)
  /\ (In e files -> os_path_exists (volume e) = true).
Proof.
  intros files. subst files. split; [apply index_membership|].
  intros He. apply index_membership in He as (tx & s & _ & _ & Hv & ->). exact Hv.
Qed.

End WholeIndexFacts.

(* ================================================================== *)
(** ** What the loader returns, and when it exits *)

Section LoaderOutcomes.

Import Py data_loaders.
Local Open Scope string_scope.

Variable ndarray : Type.
Variable astype_float32 : ndarray -> ndarray.

Lemma bind_return_inv {A B} (m : outcome A) (k : A -> outcome B) (b : B) :
  bind m k = Return b -> exists a, m = Return a /\ k a = Return b.
Proof. destruct m; simpl; try discriminate. intros H. now exists a. Qed.

Lemma bind_exit_inv {A B} (m : outcome A) (k : A -> outcome B) (status : Z) :
  bind m k = Exit status ->
  m = Exit status \/ exists a, m = Return a /\ k a = Exit status.
Proof.
  destruct m; simpl; try discriminate.
  - intros H. right. now exists a.
  - intros H. left. congruence.
Qed.

Lemma subscript_return_inv {A} (l : list A) (i : nat) (x : A) :
  subscript l i = Return x -> nth_error l i = Some x.
Proof. unfold subscript. destruct (nth_error l i); congruence. Qed.

Lemma subscript_not_exit {A} (l : list A) (i : nat) (status : Z) :
  subscript l i <> Exit status.
Proof. unfold subscript. destruct (nth_error l i); discriminate. Qed.

Lemma random_choice_range_inv (draw n i : nat) :
  random_choice_range draw n = Return i -> i = (draw mod n)%nat /\ (i < n)%nat.
Proof.
  unfold random_choice_range. destruct (n =? 0)%nat eqn:E; [discriminate|].
  intros H. injection H as <-. apply Nat.eqb_neq in E.
  split; [reflexivity | now apply Nat.mod_upper_bound].
Qed.

Lemma imread_astype_inv (x : option ndarray) (a' : ndarray) :
  imread_astype astype_float32 x = Return a' ->
  exists a, x = Some a /\ a' = astype_float32 a.
Proof. destruct x as [a|]; simpl; [|discriminate]. intros H. exists a. split; congruence. Qed.

(** What a returned sample says about the entry, the view and the reads. *)
Lemma get_images_return_inv (fs : storage ndarray) file_list idx draw e lr rr ld rd :
  get_images astype_float32 fs file_list idx draw = Return (e, (lr, rr, ld, rd)) ->
  exists i,
    nth_error file_list idx = Some e
    /\ i = (draw mod length (left_rgb_images e))%nat
    /\ (i < length (left_rgb_images e))%nat
    /\ (exists p a, nth_error (left_rgb_images e) i = Some p
                    /\ cv2_imread fs p = Some a /\ lr = astype_float32 a)
    /\ (exists p a, nth_error (right_rgb_images e) i = Some p
                    /\ cv2_imread fs p = Some a /\ rr = astype_float32 a)
    /\ (exists p a, nth_error (left_disp_images e) i = Some p
                    /\ pyexr_get fs p "Disparity.Z" = Return a
                    /\ ld = astype_float32 a)
    /\ (exists p a, nth_error (right_disp_images e) i = Some p
                    /\ pyexr_get fs p "Disparity.Z" = Return a
                    /\ rd = astype_float32 a).
Proof.
  unfold get_images. intros H.
  apply bind_return_inv in H as (e' & He & H). apply subscript_return_inv in He.
  apply bind_return_inv in H as (i & Hi & H). apply random_choice_range_inv in Hi as [Hi Hlt].
  apply bind_return_inv in H as (p1 & Hp1 & H). apply subscript_return_inv in Hp1.
  apply bind_return_inv in H as (p2 & Hp2 & H). apply subscript_return_inv in Hp2.
  apply bind_return_inv in H as (p3 & Hp3 & H). apply subscript_return_inv in Hp3.
  apply bind_return_inv in H as (p4 & Hp4 & H). apply subscript_return_inv in Hp4.
  apply bind_return_inv in H as (a1 & Ha1 & H). apply imread_astype_inv in Ha1 as (b1 & Hb1 & ->).
  apply bind_return_inv in H as (a2 & Ha2 & H). apply imread_astype_inv in Ha2 as (b2 & Hb2 & ->).
  apply bind_return_inv in H as (a3 & Ha3 & H).
  apply bind_return_inv in H as (a4 & Ha4 & H).
  injection H as E0 E1 E2 E3 E4. subst e' lr rr ld rd.
  exists i. repeat split; try assumption; eauto 6.
Qed.

Lemma get_volume_return_inv (fs : storage ndarray) volume_path a :
  get_volume astype_float32 fs volume_path = Return a ->
  exists payload v,
    scipy_io_loadmat fs volume_path = Return payload
    /\ dict_get "Volume" payload = Some v /\ a = astype_float32 v.
Proof.
  unfold get_volume. intros H. apply bind_return_inv in H as (payload & Hp & H).
  destruct payload as [|kv payload]; [discriminate|].
  destruct (dict_get "Volume" (kv :: payload)) as [v|] eqn:E; [|discriminate].
  injection H as <-. now exists (kv :: payload), v.
Qed.

(** X11.  A sample that the loader returns carries the taxonomy and the
    name of the entry at the given index, the four images of one and the
    same view of that entry (the view the draw selects), each read from
    its path and cast, and the field "Volume" of the container of the
    entry, cast. *)
Theorem loaded_sample_is_one_view
    (fs : storage ndarray) (file_list : list file_entry) (idx draw : nat)
    (d : datum ndarray) :
  get_datum astype_float32 fs file_list idx draw = Return d ->
  exists e i,
    nth_error file_list idx = Some e
    /\ i = (draw mod length (left_rgb_images e))%nat
    /\ (i < length (left_rgb_images e))%nat
    /\ d_taxonomy_name d = entry_taxonomy_name e
    /\ d_sample_name d = sample_name e
    /\ (exists p a, nth_error (left_rgb_images e) i = Some p
                    /\ cv2_imread fs p = Some a
                    /\ left_rgb_image d = astype_float32 a)
    /\ (exists p a, nth_error (right_rgb_images e) i = Some p
                    /\ cv2_imread fs p = Some a
                    /\ right_rgb_image d = astype_float32 a)
    /\ (exists p a, nth_error (left_disp_images e) i = Some p
                    /\ pyexr_get fs p "Disparity.Z" = Return a
                    /\ left_disp_image d = astype_float32 a)
    /\ (exists p a, nth_error (right_disp_images e) i = Some p
                    /\ pyexr_get fs p "Disparity.Z" = Return a
                    /\ right_disp_image d = astype_float32 a)
    /\ (exists payload v, scipy_io_loadmat fs (volume e) = Return payload
                          /\ dict_get "Volume" payload = Some v
                          /\ d_volume d = astype_float32 v).
Proof.
  unfold get_datum. intros H.
  apply bind_return_inv in H as ([e [[[lr rr] ld] rd]] & Himg & H).
  apply bind_return_inv in H as (v & Hv & H). injection H as <-.
  apply get_images_return_inv in Himg as (i & He & Hi & Hlt & H1 & H2 & H3 & H4).
  apply get_volume_return_inv in Hv.
  exists e, i. cbn. repeat split; assumption.
Qed.

(** X12.  When the library reads do not themselves exit, the loader exits
    the process only with status 2, and only after the view was drawn and
    its four images decoded, on a container that yields no data. *)
Theorem loader_exits_only_on_empty_container
    (fs : storage ndarray) (file_list : list file_entry) (idx draw : nat)
    (status : Z) :
  props.reads_do_not_exit fs ->
  get_datum astype_float32 fs file_list idx draw = Exit status ->
  status = 2%Z
  /\ exists e images,
       get_images astype_float32 fs file_list idx draw = Return (e, images)
       /\ scipy_io_loadmat fs (volume e) = Return [].
Proof.
  intros [Hexr Hmat] H. unfold get_datum in H.
  apply bind_exit_inv in H as [H | ([e [[[lr rr] ld] rd]] & Himg & H)].
  - exfalso. unfold get_images in H.
    repeat match type of H with
           | bind _ _ = Exit _ => apply bind_exit_inv in H as [H | (? & _ & H)]
           end;
      try (now apply subscript_not_exit in H);
      try (now apply Hexr in H);
      try discriminate H.
    + unfold random_choice_range in H. destruct (_ =? 0)%nat; discriminate H.
    + unfold imread_astype in H. destruct (cv2_imread fs _); discriminate H.
    + unfold imread_astype in H. destruct (cv2_imread fs _); discriminate H.
  - apply bind_exit_inv in H as [H | (v & _ & H)]; [|discriminate H].
    unfold get_volume in H.
    apply bind_exit_inv in H as [H | (payload & Hp & H)]; [now apply Hmat in H|].
    destruct payload as [|kv payload].
    + injection H as <-. split; [reflexivity|]. now exists e, (lr, rr, ld, rd).
    + destruct (dict_get "Volume" (kv :: payload)); discriminate H.
Qed.

End LoaderOutcomes.

Section LoaderOutcomeWitnesses.

Import Py data_loaders fixtures.
Local Open Scope string_scope.

Lemma loaded_sample_is_one_view_witness :
  exists d e,
    get_datum (fun a => a) (storage_with [("Volume", 7%nat)]) one_sample 0 0 = Return d
    /\ nth_error one_sample 0 = Some e
    /\ d_sample_name d = sample_name e.
Proof.
  eexists.
  destruct (@loaded_sample_is_one_view nat (fun a => a)
              (storage_with [("Volume", 7%nat)]) one_sample 0 0 _ eq_refl)
    as (e & i & He & _ & _ & _ & Hname & _).
  exists e. split; [reflexivity|]. split; [exact He | exact Hname].
Defined.

Lemma loader_exits_only_on_empty_container_witness :
  exists e images,
    get_images (fun a => a) (storage_with []) one_sample 0 0 = Return (e, images)
    /\ scipy_io_loadmat (storage_with []) (volume e) = Return [].
Proof.
  apply (@loader_exits_only_on_empty_container nat (fun a => a)
           (storage_with []) one_sample 0 0 2).
  - split; intros; discriminate.
  - reflexivity.
Defined.

End LoaderOutcomeWitnesses.

(* ================================================================== *)
(** ** The loader on the index *)

Section LoaderOnIndex.

Import Py data_loaders.
Local Open Scope string_scope.

Variable ndarray : Type.
Variable astype_float32 : ndarray -> ndarray.

Lemma descriptor_view (cfg : SHAPENET) (n : Z) (t s : string) (draw : nat)
    (template : SHAPENET -> string -> string -> Z -> string) :
  (1 <= n)%Z ->
  let i := (draw mod Z.to_nat n)%nat in
  nth_error (map (template cfg t s) (range n)) i = Some (template cfg t s (Z.of_nat i)).
Proof.
  intros Hn i. rewrite nth_error_map, range_nth; [reflexivity|].
  apply Nat.mod_upper_bound. lia.
Qed.

(** X13.  On a data set built with at least one view, every entry of which
    names files that can be read and a container with the field "Volume",
    the loader returns a sample for every index below the length and every
    draw, with the taxonomy and the name of the entry at that index. *)
Theorem readable_index_loads
    (cfg : SHAPENET) (os_path_exists : string -> bool)
    (dataset_taxonomy : list taxonomy) (dataset_type : DatasetType) (total_views : Z)
    (fs : storage ndarray) (idx draw : nat) :
  (1 <= total_views)%Z ->
  let files :=
    fst (get_dataset cfg os_path_exists dataset_taxonomy dataset_type total_views) in
  (forall e, In e files -> props.readable fs e) ->
  (idx < dataset.len files)%nat ->
  exists e d,
    nth_error files idx = Some e
    /\ get_datum astype_float32 fs files idx draw = Return d
    /\ d_taxonomy_name d = entry_taxonomy_name e
    /\ d_sample_name d = sample_name e.
Proof.
  intros Hn files Hread Hidx. unfold dataset.len in Hidx.
  destruct (nth_error files idx) as [e|] eqn:He;
    [|apply nth_error_None in He; lia].
  pose proof (nth_error_In _ _ He) as Hin.
  destruct (Hread e Hin) as (Hrgb & Hdisp & payload & v & Hmat & Hvol).
  apply index_membership in Hin as (tx & s & _ & _ & _ & Hdesc).
  set (i := (draw mod Z.to_nat total_views)%nat).
  assert (Hl : nth_error (left_rgb_images e) i
               = Some (LEFT_RENDERING_PATH cfg (taxonomy_id tx) s (Z.of_nat i)))
    by (subst e; now apply descriptor_view).
  assert (Hr : nth_error (right_rgb_images e) i
               = Some (RIGHT_RENDERING_PATH cfg (taxonomy_id tx) s (Z.of_nat i)))
    by (subst e; now apply descriptor_view).
  assert (Hld : nth_error (left_disp_images e) i
                = Some (LEFT_DISP_PATH cfg (taxonomy_id tx) s (Z.of_nat i)))
    by (subst e; now apply descriptor_view).
  assert (Hrd : nth_error (right_disp_images e) i
                = Some (RIGHT_DISP_PATH cfg (taxonomy_id tx) s (Z.of_nat i)))
    by (subst e; now apply descriptor_view).
  assert (Hlen : length (left_rgb_images e) = Z.to_nat total_views)
    by (subst e; cbn; now rewrite length_map, range_length).
  destruct (Hrgb _ (in_or_app _ _ _ (or_introl (nth_error_In _ _ Hl)))) as (a1 & Ha1).
  destruct (Hrgb _ (in_or_app _ _ _ (or_intror (nth_error_In _ _ Hr)))) as (a2 & Ha2).
  destruct (Hdisp _ (in_or_app _ _ _ (or_introl (nth_error_In _ _ Hld)))) as (a3 & Ha3).
  destruct (Hdisp _ (in_or_app _ _ _ (or_intror (nth_error_In _ _ Hrd)))) as (a4 & Ha4).
  exists e. eexists. split; [reflexivity|].
  unfold get_datum, get_images, subscript, random_choice_range.
  rewrite He. cbn [bind]. rewrite Hlen.
  replace (Z.to_nat total_views =? 0)%nat with false by (symmetry; apply Nat.eqb_neq; lia).
  cbn [bind]. fold i. rewrite Hl, Hr, Hld, Hrd. cbn [bind].
  rewrite Ha1, Ha2. cbn [bind imread_astype]. rewrite Ha3, Ha4. cbn [bind].
  unfold get_volume. rewrite Hmat. cbn [bind].
  destruct payload as [|kv payload]; [discriminate Hvol|].
  rewrite Hvol. cbn. repeat split.
Qed.

(** X14.  On a data set built with a view count of zero or less, no access
    returns a sample: whatever is on disk, the index and the draw, the
    loader raises [IndexError]. *)
Theorem no_views_no_sample
    (cfg : SHAPENET) (os_path_exists : string -> bool)
    (dataset_taxonomy : list taxonomy) (dataset_type : DatasetType) (total_views : Z)
    (fs : storage ndarray) (idx draw : nat) :
  (total_views <= 0)%Z ->
  get_datum astype_float32 fs
    (fst (get_dataset cfg os_path_exists dataset_taxonomy dataset_type total_views))
    idx draw
  = Raise IndexError.
Proof.
  intros Hn. unfold get_datum, get_images, subscript.
  destruct (nth_error _ idx) as [e|] eqn:He; [|reflexivity].
  apply nth_error_In, index_membership in He as (tx & s & _ & _ & _ & ->).
  cbn [bind spec.descriptor left_rgb_images]. rewrite length_map, range_length.
  now replace (Z.to_nat total_views) with 0%nat by lia.
Qed.

(** X15.  [__getitem__] returns a sample only when [get_datum] does, with
    the same taxonomy, name and volume: the transforms see the four images
    and nothing else; without transforms the sample is returned as it is,
    and what [get_datum] raises or exits with is passed on. *)
Theorem getitem_keeps_volume
    (transforms : option (ndarray * ndarray * ndarray * ndarray ->
                          outcome (ndarray * ndarray * ndarray * ndarray)))
    (fs : storage ndarray) (file_list : list file_entry) (idx draw : nat) :
  let loaded := get_datum astype_float32 fs file_list idx draw in
  let item := dataset.getitem astype_float32 transforms fs file_list idx draw in
  (forall d', item = Return d' ->
     exists d, loaded = Return d
               /\ d_taxonomy_name d' = d_taxonomy_name d
               /\ d_sample_name d' = d_sample_name d
               /\ d_volume d' = d_volume d
               /\ (transforms = None -> d' = d)
               /\ (forall f, transforms = Some f ->
                     f (left_rgb_image d, right_rgb_image d,
                        left_disp_image d, right_disp_image d)
                     = Return (left_rgb_image d', right_rgb_image d',
                               left_disp_image d', right_disp_image d')))
  /\ (forall e, loaded = Raise e -> item = Raise e)
  /\ (forall status, loaded = Exit status -> item = Exit status).
Proof.
  intros loaded item. subst loaded item. unfold dataset.getitem.
  destruct (get_datum astype_float32 fs file_list idx draw) as [d| |]; cbn [bind].
  - split; [|split; discriminate].
    intros d' H. exists d. destruct transforms as [f|].
    + destruct (f _) as [[[[a b] c] e]| |] eqn:Ef; cbn [bind] in H; try discriminate H.
      injection H as <-. cbn. repeat split; try discriminate.
      intros f' E. injection E as <-. exact Ef.
    + injection H as <-. repeat split; discriminate.
  - split; [discriminate|]. split; [now intros e' -> | discriminate].
  - split; [discriminate|]. split; [discriminate | now intros s ->].
Qed.

End LoaderOnIndex.

Section LoaderOnIndexWitnesses.

Import Py data_loaders fixtures.
Local Open Scope string_scope.

Lemma readable_index_loads_witness :
  let cfg :=
    {| LEFT_RENDERING_PATH := fun t s _ => t ++ "/" ++ s ++ "/left.png";
       RIGHT_RENDERING_PATH := fun t s _ => t ++ "/" ++ s ++ "/right.png";
       LEFT_DISP_PATH := fun t s _ => t ++ "/" ++ s ++ "/left.exr";
       RIGHT_DISP_PATH := fun t s _ => t ++ "/" ++ s ++ "/right.exr";
       VOLUME_PATH := fun t s => t ++ "/" ++ s ++ ".mat" |} in
  let taxonomy_file :=
    [ {| taxonomy_id := "02691156"; taxonomy_name := "aeroplane";
         train := []; test := ["a1"]; val := [] |} ] in
  let files := fst (get_dataset cfg (fun _ => true) taxonomy_file TEST 1) in
  exists e d,
    nth_error files 0 = Some e
    /\ get_datum (fun a => a) (storage_with [("Volume", 7%nat)]) files 0 5 = Return d
    /\ d_taxonomy_name d = entry_taxonomy_name e
    /\ d_sample_name d = sample_name e.
Proof.
  intros cfg taxonomy_file files.
  apply (@readable_index_loads nat (fun a => a) cfg (fun _ => true) taxonomy_file TEST 1
           (storage_with [("Volume", 7%nat)]) 0 5).
  - lia.
  - intros e _. repeat split; intros; eexists; try eexists; try split; reflexivity.
  - vm_compute. lia.
Defined.

Lemma no_views_no_sample_witness :
  let cfg :=
    {| LEFT_RENDERING_PATH := fun t s _ => t ++ "/" ++ s ++ "/left.png";
       RIGHT_RENDERING_PATH := fun t s _ => t ++ "/" ++ s ++ "/right.png";
       LEFT_DISP_PATH := fun t s _ => t ++ "/" ++ s ++ "/left.exr";
       RIGHT_DISP_PATH := fun t s _ => t ++ "/" ++ s ++ "/right.exr";
       VOLUME_PATH := fun t s => t ++ "/" ++ s ++ ".mat" |} in
  let taxonomy_file :=
    [ {| taxonomy_id := "02691156"; taxonomy_name := "aeroplane";
         train := []; test := ["a1"]; val := [] |} ] in
  get_datum (fun a => a) (storage_with [("Volume", 7%nat)])
    (fst (get_dataset cfg (fun _ => true) taxonomy_file TEST 0)) 0 5
  = Raise IndexError.
Proof.
  intros cfg taxonomy_file.
  apply (@no_views_no_sample nat (fun a => a) cfg (fun _ => true) taxonomy_file TEST 0).
  lia.
Defined.

End LoaderOnIndexWitnesses.

(* ================================================================== *)
(** ** Fusion of volumes with a single slice *)

Section FusionOfSingleSlices.

Import Float core_test.
Local Open Scope Qc_scope.

Lemma Forall_zip_with {X Y Z} (P : X -> Prop) (Q : Y -> Prop) (R : Z -> Prop)
    (f : X -> Y -> Z) (l : list X) (k : list Y) :
  (forall x y, P x -> Q y -> R (f x y)) ->
  Forall P l -> Forall Q k -> Forall R (zip_with f l k).
Proof.
  intros Hf Hl. revert k. induction Hl as [|x l Hx Hl IH]; intros k Hk; simpl.
  - constructor.
  - destruct Hk as [|y k Hy Hk]; constructor; [now apply Hf | now apply IH].
Qed.

Lemma zip_with_comm {X Y} (f : X -> X -> Y) (l k : list X) :
  (forall x y, f x y = f y x) -> zip_with f l k = zip_with f k l.
Proof.
  intros Hf. revert k. induction l as [|x l IH]; intros [|y k]; simpl; try reflexivity.
  now rewrite Hf, IH.
Qed.

Lemma fuse_singles (lefts rights : list (list Qc)) :
  fuse (map (fun v => [v]) lefts) (map (fun v => [v]) rights) =
  zip_with spec.elementwise_mean lefts rights.
Proof.
  revert rights. induction lefts as [|l lefts IH]; intros [|r rights]; try reflexivity.
  change (fuse (map (fun v => [v]) (l :: lefts)) (map (fun v => [v]) (r :: rights)))
    with (fuse [[l]] [[r]] ++
          fuse (map (fun v => [v]) lefts) (map (fun v => [v]) rights)).
  now rewrite fuse_pair, IH.
Qed.

Lemma of_nat_2 : of_nat 2 = 1 + 1.
Proof. rewrite !of_nat_S, of_nat_0. ring. Qed.

Lemma half_sum_in_unit (l r : Qc) :
  0 <= l /\ l <= 1 -> 0 <= r /\ r <= 1 ->
  0 <= (l + r) / of_nat 2 /\ (l + r) / of_nat 2 <= 1.
Proof.
  intros [Hl0 Hl1] [Hr0 Hr1].
  assert (H2 : 0 < of_nat 2) by (apply of_nat_pos; lia).
  assert (Hne : of_nat 2 <> 0) by now apply Qceqb_neq, Qceqb_pos.
  assert (E : (l + r) / of_nat 2 * of_nat 2 = l + r) by (field; exact Hne).
  split; apply Qcmult_lt_0_le_reg_r with (z := of_nat 2); try exact H2; rewrite E.
  - replace (0 * of_nat 2) with (0 + 0) by ring. now apply Qcplus_le_compat.
  - rewrite of_nat_2. replace (1 * (1 + 1)) with (1 + 1) by ring.
    now apply Qcplus_le_compat.
Qed.

(** X16.  When each of the two estimates has a single slice along axis 1
    (shape B x 1 x ...), the two have the same shape and every voxel of
    both is between 0 and 1, the fused volume has, for every sample of
    the batch, as many voxels as the estimates, each between 0 and 1. *)
Theorem fuse_stays_within_bounds (lefts rights : list (list Qc)) :
  Forall2 (fun l r => length l = length r) lefts rights ->
  Forall (props.bounded 0 1) lefts ->
  Forall (props.bounded 0 1) rights ->
  let fused := fuse (map (fun v => [v]) lefts) (map (fun v => [v]) rights) in
  Forall2 (fun l v => length v = length l) lefts fused
  /\ Forall (props.bounded 0 1) fused.
Proof.
  intros Hshape Hl Hr fused. subst fused. rewrite fuse_singles. split.
  - clear Hl Hr. induction Hshape as [|l r lefts rights Hlr _ IH]; simpl.
    + constructor.
    + constructor; [|exact IH].
      unfold spec.elementwise_mean. now rewrite zip_with_length.
  - apply (Forall_zip_with (P := props.bounded 0 1) (Q := props.bounded 0 1));
      [|exact Hl | exact Hr].
    intros l r Hbl Hbr. unfold spec.elementwise_mean, props.bounded in *.
    apply (Forall_zip_with (P := fun x => 0 <= x /\ x <= 1)
                           (Q := fun x => 0 <= x /\ x <= 1));
      [|exact Hbl | exact Hbr].
    intros x y. apply half_sum_in_unit.
Qed.

Lemma fuse_stays_within_bounds_witness :
  let lefts := [[Q2Qc 0.2; Q2Qc 0.9]] in
  let rights := [[Q2Qc 0.4; 1]] in
  let fused := fuse (map (fun v => [v]) lefts) (map (fun v => [v]) rights) in
  Forall2 (fun l v => length v = length l) lefts fused
  /\ Forall (props.bounded 0 1) fused.
Proof.
  intros lefts rights.
  apply (@fuse_stays_within_bounds lefts rights).
  - repeat constructor.
  - repeat constructor; now apply Qcleb_le.
  - repeat constructor; now apply Qcleb_le.
Defined.

(** X17.  When each of the two estimates has a single slice along axis 1
    and the two have the same shape, the fused volume does not depend on
    which of the two is the left one. *)
Theorem fuse_is_symmetric (lefts rights : list (list Qc)) :
  Forall2 (fun l r => length l = length r) lefts rights ->
  fuse (map (fun v => [v]) lefts) (map (fun v => [v]) rights)
  = fuse (map (fun v => [v]) rights) (map (fun v => [v]) lefts).
Proof.
  intros _. rewrite !fuse_singles. apply zip_with_comm.
  intros l r. unfold spec.elementwise_mean. apply zip_with_comm.
  intros x y. f_equal. ring.
Qed.

Lemma fuse_is_symmetric_witness :
  let lefts := [[Q2Qc 0.2; Q2Qc 0.9]] in
  let rights := [[Q2Qc 0.4; 1]] in
  fuse (map (fun v => [v]) lefts) (map (fun v => [v]) rights)
  = fuse (map (fun v => [v]) rights) (map (fun v => [v]) lefts).
Proof.
  intros lefts rights.
  apply (@fuse_is_symmetric lefts rights).
  repeat constructor.
Defined.

End FusionOfSingleSlices.

(* ================================================================== *)
(** ** The keys of the buckets, and the effect of the threshold *)

Section BucketsAndThresholds.

Import Py Float core_test.
Local Open Scope Qc_scope.

(** X18.  The dictionary [test_iou] is created without keys.  Lines
    128-131 keep the keys distinct and in their order, add the taxonomy
    of the sample after the others when it is new and nothing otherwise,
    and keep the sample count of every bucket equal to the number of its
    IoU vectors: a bucket that exists holds at least one sample. *)
Theorem buckets_after_a_sample
    (F : Type) (test_iou : dict (bucket F)) (taxonomy_id : string)
    (sample_iou : list F) :
  NoDup (map fst test_iou) ->
  Forall (fun entry => n_samples (snd entry) = length (iou (snd entry))
                       /\ (1 <= n_samples (snd entry))%nat) test_iou ->
  let test_iou' := record_iou test_iou taxonomy_id sample_iou in
  NoDup (map fst test_iou')
  /\ map fst test_iou' =
     (if dict_in taxonomy_id test_iou
      then map fst test_iou
      else map fst test_iou ++ [taxonomy_id])
  /\ In taxonomy_id (map fst test_iou')
  /\ Forall (fun entry => n_samples (snd entry) = length (iou (snd entry))
                          /\ (1 <= n_samples (snd entry))%nat) test_iou'.
Proof.
  intros Hnodup Hcount test_iou'.
  assert (Hkeys : map fst test_iou' =
                  if dict_in taxonomy_id test_iou
                  then map fst test_iou
                  else map fst test_iou ++ [taxonomy_id])
    by apply record_iou_keys.
  split; [|split; [exact Hkeys|split]].
  - rewrite Hkeys. destruct (dict_in taxonomy_id test_iou) eqn:E; [exact Hnodup|].
    apply dict_in_false in E. apply NoDup_app; [exact Hnodup | repeat constructor; intros [] |].
    intros a Ha [<- | []]. now apply E.
  - rewrite Hkeys. destruct (dict_in taxonomy_id test_iou) eqn:E.
    + apply dict_in_get in E as [b Hb]. apply dict_get_In in Hb.
      apply in_map_iff. now exists (taxonomy_id, b).
    + apply in_or_app. right. now left.
  - unfold test_iou'. rewrite record_iou_cases.
    destruct (dict_in taxonomy_id test_iou).
    + apply dict_update_Forall; [|exact Hcount].
      intros k' b [Hb _]. cbn [snd props.one_more n_samples iou] in *.
      rewrite length_app. cbn [length]. lia.
    + apply Forall_app. split; [exact Hcount|]. constructor; [|constructor].
      cbn. lia.
Qed.

Lemma buckets_after_a_sample_witness :
  let test_iou := record_iou [] "02691156"%string [Fin 1] in
  let test_iou' := record_iou test_iou "02828884"%string [Fin 0] in
  NoDup (map fst test_iou')
  /\ map fst test_iou' = ["02691156"; "02828884"]%string
  /\ In "02828884"%string (map fst test_iou')
  /\ Forall (fun entry => n_samples (snd entry) = length (iou (snd entry))
                          /\ (1 <= n_samples (snd entry))%nat) test_iou'.
Proof.
  intros test_iou test_iou'.
  apply (@buckets_after_a_sample fval test_iou "02828884"%string [Fin 0]).
  - repeat constructor. intros [].
  - repeat constructor.
Defined.

Lemma threshold_antitone (th1 th2 x : Qc) :
  th1 <= th2 -> Qcleb th2 x = true -> Qcleb th1 x = true.
Proof.
  intros H12 H. apply Qcleb_le. apply Qcleb_le in H. now apply Qcle_trans with th2.
Qed.

Lemma occupied_with_prediction (g : Qc) :
  Qcleb 1 (0 + g) = true -> Qcleb 1 (1 + g) = true.
Proof.
  intros H. apply Qcleb_le. apply Qcleb_le in H.
  apply Qcle_trans with (0 + g); [exact H|].
  apply Qcplus_le_compat; [now apply Qcleb_le | apply Qcle_refl].
Qed.

Lemma counts_antitone (th1 th2 : Qc) (gen gt : list Qc) :
  th1 <= th2 ->
  (spec.intersection th2 gen gt <= spec.intersection th1 gen gt)%nat
  /\ (spec.union th2 gen gt <= spec.union th1 gen gt)%nat.
Proof.
  intros H12.
  unfold spec.intersection, spec.union, spec.count_true, spec.binarize, spec.occupied.
  revert gt. induction gen as [|x gen IH]; intros [|g gt]; cbn [map zip_with];
    try (split; apply Nat.le_refl).
  destruct (IH gt) as [Hi Hu].
  pose proof (@threshold_antitone th1 th2 x H12) as Hx.
  pose proof (@occupied_with_prediction g) as Hg.
  destruct (Qcleb th2 x); [rewrite Hx by reflexivity|].
  - destruct (Qceqb g 1), (Qcleb 1 (1 + g)); cbn [andb filter length]; lia.
  - destruct (Qcleb th1 x); cbn [andb filter length].
    + destruct (Qcleb 1 (0 + g)); [rewrite Hg by reflexivity|];
        destruct (Qceqb g 1); try destruct (Qcleb 1 (1 + g));
        cbn [filter length]; lia.
    + destruct (Qcleb 1 (0 + g)); cbn [filter length]; lia.
Qed.

(** X19.  Raising the threshold never adds a voxel: for a binary ground
    truth, the intersection and the union computed at a threshold are at
    most those computed at any lower threshold. *)
Theorem higher_threshold_smaller_counts
    (th1 th2 : Qc) (generated_volume ground_truth_volume : list Qc) :
  spec.binary_valued ground_truth_volume ->
  th1 <= th2 ->
  intersection_at th2 generated_volume ground_truth_volume
  <= intersection_at th1 generated_volume ground_truth_volume
  /\ (union_at th2 generated_volume ground_truth_volume
      <= union_at th1 generated_volume ground_truth_volume)%nat.
Proof.
  intros Hb H12.
  destruct (@counts_antitone th1 th2 generated_volume ground_truth_volume H12)
    as [Hi Hu].
  rewrite !intersection_at_spec, !union_at_spec by exact Hb.
  split; [now apply of_nat_le | exact Hu].
Qed.

Lemma higher_threshold_smaller_counts_witness :
  let fused := [Q2Qc 0.1; Q2Qc 0.4; Q2Qc 0.6; Q2Qc 0.9] in
  let truth : list Qc := [0; 1; 1; 0] in
  intersection_at (Q2Qc 0.5) fused truth <= intersection_at (Q2Qc 0.3) fused truth
  /\ (union_at (Q2Qc 0.5) fused truth <= union_at (Q2Qc 0.3) fused truth)%nat.
Proof.
  intros fused truth.
  apply (@higher_threshold_smaller_counts (Q2Qc 0.3) (Q2Qc 0.5) fused truth).
  - binary_valued.
  - now apply Qcleb_le.
Defined.

End BucketsAndThresholds.
